(** * Image exporter: a model of posthog/tasks/exports/image_exporter.py

    The module drives a headless browser to render an insight or a
    dashboard and stores a screenshot of it.  The model below follows the
    three functions of the module ([_export_to_png], [_screenshot_asset],
    [export_image]) statement by statement.

    - Everything outside the module (the browser, the token service, the
      query engine, the storage, the site settings) is a [World]: one
      answer per call site, chosen freely, so that a theorem quantified
      over worlds covers every way these collaborators can behave.
    - The file system is a finite set of existing paths.
    - A run returns its outcome, the list of calls it made on the outside
      (in program order) and the file system it leaves behind. *)

From Stdlib Require Import ZArith QArith Bool List String Lia.
From stdpp Require Import base decidable sets gmap strings.
Import ListNotations.

Local Open Scope string_scope.
Local Open Scope list_scope.
Local Open Scope Z_scope.

(** ** Python values and exceptions *)

(** The values [driver.execute_script] hands back for the scripts of this
    module: JavaScript [undefined] arrives as [None], a number without a
    fractional part as an [int], any other number as a [float].  Floats
    are kept as exact rationals: the quantities here are pixel sizes. *)
Inductive PyVal : Type :=
  | PyNone
  | PyInt (z : Z)
  | PyFloat (q : Q).

(** Exception classes that occur in the module or in its collaborators.
    All of them derive from [Exception]. *)
Inductive ExnClass : Type :=
  | Exception
  | NotImplementedError
  | TypeError
  | FileNotFoundError
  | OSError
  | TimeoutException
  | WebDriverException.

Inductive exn : Type :=
  | Exc (cls : ExnClass) (msg : string).

Definition exn_class (e : exn) : ExnClass :=
  match e with Exc c _ => c end.

Inductive result (A : Type) : Type :=
  | Ok (a : A)
  | Raise (e : exn).
Arguments Ok {A} a.
Arguments Raise {A} e.

Definition is_TimeoutException (e : exn) : bool :=
  match exn_class e with TimeoutException => true | _ => false end.

(** ** Literal types of the module *)

(** [ScreenWidth = Literal[800, 1920]] *)
Inductive ScreenWidth : Type := W800 | W1920.

Definition int (w : ScreenWidth) : Z :=
  match w with W800 => 800 | W1920 => 1920 end.

(** [CSSSelector = Literal[".InsightCard", ".ExportedInsight"]] *)
Inductive CSSSelector : Type := InsightCard | ExportedInsight.

Definition css (s : CSSSelector) : string :=
  match s with InsightCard => ".InsightCard" | ExportedInsight => ".ExportedInsight" end.

Definition TMP_DIR : string := "/tmp".
Definition HEIGHT_OFFSET : Z := 85.

(** ** The page: what the scripts look at *)

Record Element : Type := {
  tag : string;
  classes : list string;
  rect_height : Q;        (* getBoundingClientRect().height *)
  offsetWidth : Z
}.

Record Dom : Type := {
  nodes : list Element;         (* in document order *)
  body_scrollHeight : Z         (* document.body.scrollHeight *)
}.

Inductive Selector : Type :=
  | ByClass (c : string)        (* '.c' *)
  | ByTag (t : string).         (* 't' *)

Definition matches (s : Selector) (e : Element) : bool :=
  match s with
  | ByClass c => existsb (String.eqb c) (classes e)
  | ByTag t => String.eqb t (tag e)
  end.

(** [document.querySelector]: the first match in document order, or null. *)
Definition querySelector (s : Selector) (d : Dom) : option Element :=
  find (matches s) (nodes d).

Inductive JsVal : Type :=
  | JsUndefined
  | JsNumber (q : Q).

Definition q_max (a b : Q) : Q := if Qle_bool a b then b else a.
Definition q_min (a b : Q) : Q := if Qle_bool a b then a else b.
Definition q_is_zero (q : Q) : bool := Z.eqb (Qnum q) 0.

(** The three scripts the module sends to the browser. *)
Inductive Script : Type :=
  | MEASURE_HEIGHT
  | TABLE_WIDTH
  | SETTLE (ms : Z).

Definition js_or (a b : option Element) : option Element :=
  match a with Some _ => a | None => b end.

Definition run_script (s : Script) (d : Dom) : JsVal :=
  match s with
  | MEASURE_HEIGHT =>
      let element := js_or (querySelector (ByClass "InsightCard__viz") d)
                           (querySelector (ByClass "ExportedInsight__content") d) in
      match element with
      | Some el => JsNumber (q_max (rect_height el) (inject_Z (body_scrollHeight d)))
      | None => JsNumber (inject_Z (body_scrollHeight d))
      end
  | TABLE_WIDTH =>
      let tableElement := querySelector (ByTag "table") d in
      match tableElement with
      | Some el => JsNumber (inject_Z (offsetWidth el) * (3 # 2))
      | None => JsUndefined
      end
  | SETTLE _ => JsUndefined
  end.

(** How a script result reaches Python. *)
Definition is_integral (q : Q) : bool :=
  Z.eqb (Qnum q mod Zpos (Qden q)) 0.

Definition js_to_python (v : JsVal) : PyVal :=
  match v with
  | JsUndefined => PyNone
  | JsNumber q => if is_integral q then PyInt (Qnum q / Zpos (Qden q)) else PyFloat q
  end.

(** Numeric reading of a Python value ([None] has none). *)
Definition py_num (v : PyVal) : option Q :=
  match v with
  | PyNone => None
  | PyInt z => Some (inject_Z z)
  | PyFloat q => Some q
  end.

(** [v + k] for an int [k]. *)
Definition py_add_int (v : PyVal) (k : Z) : result PyVal :=
  match v with
  | PyNone => Raise (Exc TypeError "unsupported operand type(s) for +: 'NoneType' and 'int'")
  | PyInt z => Ok (PyInt (z + k))
  | PyFloat q => Ok (PyFloat (q + inject_Z k))
  end.

(** ** The data of an export *)

Record Insight : Type := { insight_id : Z; insight_query : string }.
Record Dashboard : Type := { dashboard_id : Z; dashboard_filters : string }.

Record ExportedAsset : Type := {
  asset_id : Z;
  team_id : Z;
  insight : option Insight;
  dashboard : option Dashboard;
  export_format : string
}.

(** ** Calls on the outside, as a run makes them *)

Inductive Event : Type :=
  (* entering the functions of the module *)
  | Enter_export_to_png (asset : Z)
  | Enter_screenshot_asset (image_path url : string) (w : ScreenWidth) (sel : CSSSelector)
  (* the browser *)
  | GetDriver
  | SetWindowSize (width : Z) (height : PyVal)
  | DriverGet (url : string)
  | WaitUntil (timeout : Z) (selector : string)
  | WaitUntilNot (timeout : Z) (class_name : string)
  | ExecuteScript (s : Script)
  | SaveScreenshot (path : string)
  | GetLog (kind : string)
  | Quit
  (* collaborators *)
  | Makedirs (path : string)
  | GetPublicAccessToken (asset : Z) (minutes : Z)
  | ProcessQueryDict (insight : Z) (dashboard : option Z)
  | OpenRead (path : string)
  | SaveContent (asset : Z)
  | OsRemove (path : string)
  | LogErrorIfSiteUrlNotReachable
  (* sinks: logs, error reports, counters *)
  | Log (name : string)
  | SetTag (key : string)
  | SetExtra (key : string)
  | AddAttachment (name : string)
  | CaptureException (e : option exn)
  | Counter (name : string).

(** ** Runs *)

Record Run (A : Type) : Type := {
  res : result A;
  events : list Event;
  files : gset string
}.
Arguments res {A} _.
Arguments events {A} _.
Arguments files {A} _.

Definition M (A : Type) : Type := gset string -> Run A.

Definition ret {A} (a : A) : M A :=
  fun fs => {| res := Ok a; events := []; files := fs |}.

Definition raise {A} (e : exn) : M A :=
  fun fs => {| res := Raise e; events := []; files := fs |}.

Definition bind {A B} (m : M A) (k : A -> M B) : M B :=
  fun fs =>
    let r := m fs in
    match res r with
    | Ok a =>
        let r' := k a (files r) in
        {| res := res r'; events := events r ++ events r'; files := files r' |}
    | Raise e => {| res := Raise e; events := events r; files := files r |}
    end.

Notation "x <- m ;; k" := (bind m (fun x => k))
  (at level 100, m at next level, right associativity).
Notation "m ;; k" := (bind m (fun _ => k))
  (at level 100, right associativity).

Definition emit (ev : Event) : M unit :=
  fun fs => {| res := Ok tt; events := [ev]; files := fs |}.

Definition lift {A} (r : result A) : M A :=
  match r with Ok a => ret a | Raise e => raise e end.

(** [try: body except <catches> as e: handler e] *)
Definition try_except {A} (body : M A) (catches : exn -> bool) (handler : exn -> M A) : M A :=
  fun fs =>
    let r := body fs in
    match res r with
    | Ok a => r
    | Raise e =>
        if catches e then
          let r' := handler e (files r) in
          {| res := res r'; events := events r ++ events r'; files := files r' |}
        else r
    end.

(** [except Exception]: every exception of the model derives from it. *)
Definition any_Exception (e : exn) : bool := true.

(** [try: body finally: fin]; an exception of [fin] takes over. *)
Definition try_finally {A} (body : M A) (fin : M unit) : M A :=
  fun fs =>
    let r := body fs in
    let r' := fin (files r) in
    {| res := match res r' with Ok _ => res r | Raise e' => Raise e' end;
       events := events r ++ events r';
       files := files r' |}.

(** [try: body except Exception: pass] *)
Definition try_pass (body : M unit) : M unit :=
  try_except body any_Exception (fun _ => ret tt).

(** File system primitives. *)
Definition path_exists (p : string) : M bool :=
  fun fs => {| res := Ok (bool_decide (p ∈ fs)); events := []; files := fs |}.

Definition write_file (p : string) : M unit :=
  fun fs => {| res := Ok tt; events := []; files := {[ p ]} ∪ fs |}.

Definition os_remove (p : string) : M unit :=
  fun fs =>
    if bool_decide (p ∈ fs)
    then {| res := Ok tt; events := [OsRemove p]; files := fs ∖ {[ p ]} |}
    else {| res := Raise (Exc FileNotFoundError p); events := [OsRemove p]; files := fs |}.

(** ** The world around the module *)

(** Call sites of [driver.set_window_size], [driver.execute_script] and
    [driver.save_screenshot] in [_screenshot_asset], by source line. *)
Inductive ResizeSite : Type := L146 | L193 | L209.
Inductive ScriptSite : Type := L169 | L179 | L196 | L199.
Inductive ShotSite : Type := L162 | L210 | L223.

(** What a [save_screenshot] call does: how it ends, and whether the file
    is on disk afterwards. *)
Record Shot : Type := {
  shot_result : result unit;
  shot_writes : bool
}.

Record World : Type := {
  SITE_URL : string;                              (* settings.SITE_URL *)
  absolute_uri : string -> string;                (* posthog.utils.absolute_uri *)
  uuid4 : string;                                 (* str(uuid.uuid4()) *)
  on_makedirs : result unit;
  on_get_public_access_token : result string;
  on_process_query_dict : result unit;
  on_get_driver : result unit;
  on_set_window_size : ResizeSite -> result unit;
  on_get : result unit;
  on_wait_marker : result unit;                   (* WebDriverWait(driver, 20).until *)
  on_wait_spinner : result unit;                  (* WebDriverWait(driver, 20).until_not *)
  on_execute_script : ScriptSite -> result Dom;   (* raises, or runs on the page as it is then *)
  on_save_screenshot : ShotSite -> Shot;
  on_get_log : result unit;
  on_quit : result unit;
  on_read : result unit;                          (* image_file.read() *)
  on_save_content : result unit
}.

(** The same world, except that the spinner is gone in time. *)
Definition spinner_gone (w : World) : World :=
  {| SITE_URL := SITE_URL w;
     absolute_uri := absolute_uri w;
     uuid4 := uuid4 w;
     on_makedirs := on_makedirs w;
     on_get_public_access_token := on_get_public_access_token w;
     on_process_query_dict := on_process_query_dict w;
     on_get_driver := on_get_driver w;
     on_set_window_size := on_set_window_size w;
     on_get := on_get w;
     on_wait_marker := on_wait_marker w;
     on_wait_spinner := Ok tt;
     on_execute_script := on_execute_script w;
     on_save_screenshot := on_save_screenshot w;
     on_get_log := on_get_log w;
     on_quit := on_quit w;
     on_read := on_read w;
     on_save_content := on_save_content w |}.

(** Truth value of a Python string. *)
Definition truthy (s : string) : bool := negb (String.eqb s "").

(** ** Blocks with a local variable

    Both [try] statements of the module assign a local inside the [try]
    block ([image_path], [driver]) and read it in the [except] and
    [finally] clauses.  A block therefore returns, next to its run, the
    value the local has when the block is left. *)
Definition Block (L A : Type) : Type := gset string -> L * Run A.

Definition leaving {L A} (l : L) (m : M A) : Block L A :=
  fun fs => (l, m fs).

Definition after {A B} (r : Run A) (r' : Run B) : Run B :=
  {| res := res r'; events := events r ++ events r'; files := files r' |}.

(** [try: block except Exception as e: handler finally: fin] *)
Definition try_except_finally {L A}
    (block : Block L A) (handler : L -> exn -> M A) (fin : L -> M unit) : M A :=
  fun fs =>
    let '(l, r) := block fs in
    let r1 := match res r with
              | Ok _ => r
              | Raise e => after r (handler l e (files r))
              end in
    let r2 := fin l (files r1) in
    {| res := match res r2 with Ok _ => res r1 | Raise e' => Raise e' end;
       events := events r1 ++ events r2;
       files := files r2 |}.

(** ** The browser session *)

Definition Driver : Type := unit.

Definition get_driver (w : World) : M Driver :=
  emit GetDriver ;; lift (on_get_driver w).

Definition set_window_size (w : World) (site : ResizeSite) (width : Z) (height : PyVal) : M unit :=
  emit (SetWindowSize width height) ;; lift (on_set_window_size w site).

Definition driver_get (w : World) (url : string) : M unit :=
  emit (DriverGet url) ;; lift (on_get w).

Definition wait_until (w : World) (timeout : Z) (selector : string) : M unit :=
  emit (WaitUntil timeout selector) ;; lift (on_wait_marker w).

Definition wait_until_not (w : World) (timeout : Z) (class_name : string) : M unit :=
  emit (WaitUntilNot timeout class_name) ;; lift (on_wait_spinner w).

Definition execute_script (w : World) (site : ScriptSite) (s : Script) : M PyVal :=
  emit (ExecuteScript s) ;;
  d <- lift (on_execute_script w site) ;;
  ret (js_to_python (run_script s d)).

Definition save_screenshot (w : World) (site : ShotSite) (path : string) : M unit :=
  emit (SaveScreenshot path) ;;
  (if shot_writes (on_save_screenshot w site) then write_file path else ret tt) ;;
  lift (shot_result (on_save_screenshot w site)).

Definition get_log (w : World) (kind : string) : M unit :=
  emit (GetLog kind) ;; lift (on_get_log w).

Definition quit (w : World) : M unit :=
  emit Quit ;; lift (on_quit w).

(** ** _screenshot_asset *)

(** Lines 150-166: wait until nothing is loading; a timeout is reported
    and left behind. *)
Definition wait_nothing_loading (w : World) (image_path url_to_render : string) : M unit :=
  try_except
    (wait_until_not w 20 "Spinner")
    is_TimeoutException
    (fun _ =>
       emit (Log "image_exporter.timeout") ;;
       emit (SetExtra "url_to_render") ;;
       try_pass (save_screenshot w L162 image_path ;;
                 emit (AddAttachment image_path)) ;;
       emit (CaptureException None)).

(** Lines 187-190. *)
Definition resolve_width (screenshot_width : ScreenWidth) (width : PyVal) : Z :=
  match width with
  | PyInt z =>
      Z.max (int screenshot_width)
            (Z.min 1800 (if z =? 0 then int screenshot_width else z))
  | _ => int screenshot_width
  end.

(** Lines 146-148: open the page and wait for its marker. *)
Definition navigate (w : World) (url_to_render : string)
    (screenshot_width : ScreenWidth) (wait_for_css_selector : CSSSelector) : M unit :=
  set_window_size w L146 (int screenshot_width) (PyInt 600) ;;
  driver_get w url_to_render ;;
  wait_until w 20 (css wait_for_css_selector).

(** Lines 168-210: measure, resize, settle, measure again, resize,
    capture. *)
Definition size_and_capture (w : World) (image_path : string)
    (screenshot_width : ScreenWidth) : M unit :=
  height <- execute_script w L169 MEASURE_HEIGHT ;;
  width <- execute_script w L179 TABLE_WIDTH ;;
  let width := resolve_width screenshot_width width in
  h <- lift (py_add_int height HEIGHT_OFFSET) ;;
  set_window_size w L193 width h ;;
  execute_script w L196 (SETTLE 500) ;;
  final_height <- execute_script w L199 MEASURE_HEIGHT ;;
  h' <- lift (py_add_int final_height HEIGHT_OFFSET) ;;
  set_window_size w L209 width h' ;;
  save_screenshot w L210 image_path.

(** Lines 146-210, after the driver is there. *)
Definition render (w : World) (image_path url_to_render : string)
    (screenshot_width : ScreenWidth) (wait_for_css_selector : CSSSelector) : M unit :=
  navigate w url_to_render screenshot_width wait_for_css_selector ;;
  wait_nothing_loading w image_path url_to_render ;;
  size_and_capture w image_path screenshot_width.

(** Lines 143-210: the [try] block; [driver] is [None] until
    [get_driver] has returned. *)
Definition screenshot_try (w : World) (image_path url_to_render : string)
    (screenshot_width : ScreenWidth) (wait_for_css_selector : CSSSelector)
    : Block (option Driver) unit :=
  fun fs =>
    let r := get_driver w fs in
    match res r with
    | Raise e => (None, {| res := Raise e; events := events r; files := files r |})
    | Ok driver =>
        (Some driver,
         after r (render w image_path url_to_render screenshot_width
                         wait_for_css_selector (files r)))
    end.

(** Lines 211-229: the [except Exception as e] clause. *)
Definition screenshot_except (w : World) (image_path url_to_render : string)
    (driver : option Driver) (e : exn) : M unit :=
  emit (SetExtra "url_to_render") ;;
  match driver with
  | Some _ =>
      try_pass (get_log w "browser" ;; emit (AddAttachment "logs.txt")) ;;
      try_pass (save_screenshot w L223 image_path ;; emit (AddAttachment image_path))
  | None => ret tt
  end ;;
  emit (CaptureException (Some e)) ;;
  raise e.

(** Lines 230-232: the [finally] clause. *)
Definition screenshot_finally (w : World) (driver : option Driver) : M unit :=
  match driver with
  | Some _ => quit w
  | None => ret tt
  end.

Definition _screenshot_asset (w : World) (image_path url_to_render : string)
    (screenshot_width : ScreenWidth) (wait_for_css_selector : CSSSelector) : M unit :=
  emit (Enter_screenshot_asset image_path url_to_render screenshot_width wait_for_css_selector) ;;
  try_except_finally
    (screenshot_try w image_path url_to_render screenshot_width wait_for_css_selector)
    (screenshot_except w image_path url_to_render)
    (screenshot_finally w).

(** ** _export_to_png *)

Definition image_path_of (w : World) : string :=
  TMP_DIR +:+ "/" +:+ uuid4 w +:+ ".png".

(** Lines 98-107: which page to render, and how. *)
Definition render_target (w : World) (exported_asset : ExportedAsset) (access_token : string)
    : result (string * CSSSelector * ScreenWidth) :=
  match insight exported_asset, dashboard exported_asset with
  | Some _, _ =>
      Ok (absolute_uri w ("/exporter?token=" +:+ access_token +:+ "&legend"),
          ExportedInsight, W800)
  | None, Some _ =>
      Ok (absolute_uri w ("/exporter?token=" +:+ access_token), InsightCard, W1920)
  | None, None =>
      Raise (Exc Exception "Export is missing required dashboard or insight ID")
  end.

(** Lines 113-118: read the screenshot, store it, remove the file. *)
Definition read_and_store (w : World) (exported_asset : ExportedAsset) (image_path : string)
    : M unit :=
  emit (OpenRead image_path) ;;
  there <- path_exists image_path ;;
  (if there then lift (on_read w) else raise (Exc FileNotFoundError image_path)) ;;
  emit (SaveContent (asset_id exported_asset)) ;;
  lift (on_save_content w) ;;
  os_remove image_path.

(** Lines 87-118, once [image_path] is assigned. *)
Definition export_steps (w : World) (exported_asset : ExportedAsset) (image_path : string)
    : M unit :=
  tmp <- path_exists TMP_DIR ;;
  (if negb tmp
   then emit (Makedirs TMP_DIR) ;; lift (on_makedirs w) ;; write_file TMP_DIR
   else ret tt) ;;
  emit (GetPublicAccessToken (asset_id exported_asset) 15) ;;
  access_token <- lift (on_get_public_access_token w) ;;
  target <- lift (render_target w exported_asset access_token) ;;
  let '(url_to_render, wait_for_css_selector, screenshot_width) := target in
  emit (Log "exporting_asset") ;;
  _screenshot_asset w image_path url_to_render screenshot_width wait_for_css_selector ;;
  read_and_store w exported_asset image_path.

(** Lines 81-118: the [try] block; [image_path] is [None] until line 88. *)
Definition export_try (w : World) (exported_asset : ExportedAsset)
    : Block (option string) unit :=
  fun fs =>
    if negb (truthy (SITE_URL w))
    then leaving None
           (raise (Exc Exception
              "The SITE_URL is not set. The exporter must have HTTP access to the web app in order to work"))
           fs
    else
      let image_path := image_path_of w in
      leaving (Some image_path) (export_steps w exported_asset image_path) fs.

(** Lines 120-127: the [except Exception] clause.
    [log_error_if_site_url_not_reachable] only writes to the log. *)
Definition export_except (w : World) (image_path : option string) (e : exn) : M unit :=
  match image_path with
  | Some p =>
      if truthy p
      then there <- path_exists p ;; if there then os_remove p else ret tt
      else ret tt
  | None => ret tt
  end ;;
  emit LogErrorIfSiteUrlNotReachable ;;
  raise e.

(** The [try] statement of [_export_to_png] has no [finally] clause. *)
Definition _export_to_png (w : World) (exported_asset : ExportedAsset) : M unit :=
  emit (Enter_export_to_png (asset_id exported_asset)) ;;
  try_except_finally
    (export_try w exported_asset)
    (export_except w)
    (fun _ => ret tt).

(** ** export_image *)

Definition unsupported_format (fmt : string) : exn :=
  Exc NotImplementedError ("Export to format " +:+ fmt +:+ " is not supported for insights").

(** Lines 241-262: the [try] block. *)
Definition export_image_try (w : World) (exported_asset : ExportedAsset) : M unit :=
  match insight exported_asset with
  | Some i =>
      emit (ProcessQueryDict (insight_id i)
              (option_map dashboard_id (dashboard exported_asset))) ;;
      lift (on_process_query_dict w)
  | None => ret tt
  end ;;
  if String.eqb (export_format exported_asset) "image/png"
  then
    try_finally (_export_to_png w exported_asset) (emit (Counter "EXPORT_TIMER")) ;;
    emit (Counter "EXPORT_SUCCEEDED_COUNTER")
  else raise (unsupported_format (export_format exported_asset)).

Definition export_image (w : World) (exported_asset : ExportedAsset) : M unit :=
  emit (SetTag "team_id") ;;
  emit (SetTag "asset_id") ;;
  try_except
    (export_image_try w exported_asset)
    any_Exception
    (fun e =>
       emit (SetTag "celery_task") ;;
       emit (SetTag "team_id") ;;
       emit (CaptureException (Some e)) ;;
       emit (Log "image_exporter.failed") ;;
       emit (Counter "EXPORT_FAILED_COUNTER") ;;
       raise e).

(** ** Reading a run *)

Definition is_Quit (ev : Event) : bool :=
  match ev with Quit => true | _ => false end.

Definition is_GetDriver (ev : Event) : bool :=
  match ev with GetDriver => true | _ => false end.

Definition is_browser_call (ev : Event) : bool :=
  match ev with
  | GetDriver | SetWindowSize _ _ | DriverGet _ | WaitUntil _ _ | WaitUntilNot _ _
  | ExecuteScript _ | SaveScreenshot _ | GetLog _ | Quit => true
  | _ => false
  end.

Definition is_Enter_export_to_png (ev : Event) : bool :=
  match ev with Enter_export_to_png _ => true | _ => false end.

Definition is_Enter_screenshot_asset (ev : Event) : bool :=
  match ev with Enter_screenshot_asset _ _ _ _ => true | _ => false end.

Definition count (f : Event -> bool) (evs : list Event) : nat :=
  length (List.filter f evs).

(** The viewport sizes a run applied, in order, and the last width. *)
Fixpoint window_widths (evs : list Event) : list Z :=
  match evs with
  | [] => []
  | SetWindowSize width _ :: evs' => width :: window_widths evs'
  | _ :: evs' => window_widths evs'
  end.

Definition final_width (evs : list Event) : option Z :=
  List.last (List.map Some (window_widths evs)) None.

(** A property of event lists that holds of every run of [m]. *)
Definition sat {A} (P : list Event -> Prop) (m : M A) : Prop :=
  forall fs, P (events (m fs)).

Definition sat_block {L A} (P : list Event -> Prop) (b : Block L A) : Prop :=
  forall fs, P (events (snd (b fs))).

(** What [m] returns and the calls it makes do not depend on the files
    around. *)
Definition steady {A} (m : M A) : Prop :=
  forall fs1 fs2, res (m fs1) = res (m fs2) /\ events (m fs1) = events (m fs2).

(** A Python value that is the number [q]. *)
Definition is_number (v : PyVal) (q : Q) : Prop :=
  match py_num v with Some x => x == q | None => False end.

Definition has_class (c : string) (e : Element) : bool :=
  existsb (String.eqb c) (classes e).

(** An element is a visualization container. *)
Definition is_viz_container (e : Element) : bool :=
  has_class "InsightCard__viz" e || has_class "ExportedInsight__content" e.

(** ** The sizing rule in the words of the specification

    "set viewport width to max(requested_width, min(1800, width_hint or
    requested_width)); width_hint is only honored when it resolves to a
    number - any other result falls back to the requested width". *)
Definition spec_provisional_width (requested_width : Z) (width_hint : PyVal) : Q :=
  match py_num width_hint with
  | Some hint =>
      q_max (inject_Z requested_width)
           (q_min (inject_Z 1800)
                 (if q_is_zero hint then inject_Z requested_width else hint))
  | None => inject_Z requested_width
  end.

(** ** Sample pages and worlds *)

Definition table_of_width (wd : Z) : Element :=
  {| tag := "table"; classes := ["LemonTable"]; rect_height := 300 # 1; offsetWidth := wd |}.

Definition viz_of_height (h : Q) : Element :=
  {| tag := "div"; classes := ["InsightCard__viz"]; rect_height := h; offsetWidth := 700 |}.

Definition page (els : list Element) (scroll : Z) : Dom :=
  {| nodes := els; body_scrollHeight := scroll |}.

(** A world in which every collaborator does its job and the page is [d]
    throughout. *)
Definition calm (d : Dom) : World :=
  {| SITE_URL := "https://app.example";
     absolute_uri := fun path => "https://app.example" +:+ path;
     uuid4 := "3f2a";
     on_makedirs := Ok tt;
     on_get_public_access_token := Ok "tok";
     on_process_query_dict := Ok tt;
     on_get_driver := Ok tt;
     on_set_window_size := fun _ => Ok tt;
     on_get := Ok tt;
     on_wait_marker := Ok tt;
     on_wait_spinner := Ok tt;
     on_execute_script := fun _ => Ok d;
     on_save_screenshot := fun _ => {| shot_result := Ok tt; shot_writes := true |};
     on_get_log := Ok tt;
     on_quit := Ok tt;
     on_read := Ok tt;
     on_save_content := Ok tt |}.

(** [calm d], except that the spinner never goes away. *)
Definition stuck_spinner (d : Dom) : World :=
  {| SITE_URL := "https://app.example";
     absolute_uri := fun path => "https://app.example" +:+ path;
     uuid4 := "3f2a";
     on_makedirs := Ok tt;
     on_get_public_access_token := Ok "tok";
     on_process_query_dict := Ok tt;
     on_get_driver := Ok tt;
     on_set_window_size := fun _ => Ok tt;
     on_get := Ok tt;
     on_wait_marker := Ok tt;
     on_wait_spinner := Raise (Exc TimeoutException "");
     on_execute_script := fun _ => Ok d;
     on_save_screenshot := fun _ => {| shot_result := Ok tt; shot_writes := true |};
     on_get_log := Ok tt;
     on_quit := Ok tt;
     on_read := Ok tt;
     on_save_content := Ok tt |}.

(** [calm d], except that the marker never shows up and that the
    diagnostics fail too. *)
Definition no_marker (d : Dom) : World :=
  {| SITE_URL := "https://app.example";
     absolute_uri := fun path => "https://app.example" +:+ path;
     uuid4 := "3f2a";
     on_makedirs := Ok tt;
     on_get_public_access_token := Ok "tok";
     on_process_query_dict := Ok tt;
     on_get_driver := Ok tt;
     on_set_window_size := fun _ => Ok tt;
     on_get := Ok tt;
     on_wait_marker := Raise (Exc TimeoutException "");
     on_wait_spinner := Ok tt;
     on_execute_script := fun _ => Ok d;
     on_save_screenshot := fun _ =>
       {| shot_result := Raise (Exc WebDriverException "no such window"); shot_writes := false |};
     on_get_log := Raise (Exc WebDriverException "no such window");
     on_quit := Ok tt;
     on_read := Ok tt;
     on_save_content := Ok tt |}.

(** [calm d], except that the site URL is not configured. *)
Definition no_site_url (d : Dom) : World :=
  {| SITE_URL := "";
     absolute_uri := fun path => path;
     uuid4 := "3f2a";
     on_makedirs := Ok tt;
     on_get_public_access_token := Ok "tok";
     on_process_query_dict := Ok tt;
     on_get_driver := Ok tt;
     on_set_window_size := fun _ => Ok tt;
     on_get := Ok tt;
     on_wait_marker := Ok tt;
     on_wait_spinner := Ok tt;
     on_execute_script := fun _ => Ok d;
     on_save_screenshot := fun _ => {| shot_result := Ok tt; shot_writes := true |};
     on_get_log := Ok tt;
     on_quit := Ok tt;
     on_read := Ok tt;
     on_save_content := Ok tt |}.

(** [calm d], except that recomputing the insight fails. *)
Definition failing_query (d : Dom) : World :=
  {| SITE_URL := "https://app.example";
     absolute_uri := fun path => "https://app.example" +:+ path;
     uuid4 := "3f2a";
     on_makedirs := Ok tt;
     on_get_public_access_token := Ok "tok";
     on_process_query_dict := Raise (Exc Exception "query timed out");
     on_get_driver := Ok tt;
     on_set_window_size := fun _ => Ok tt;
     on_get := Ok tt;
     on_wait_marker := Ok tt;
     on_wait_spinner := Ok tt;
     on_execute_script := fun _ => Ok d;
     on_save_screenshot := fun _ => {| shot_result := Ok tt; shot_writes := true |};
     on_get_log := Ok tt;
     on_quit := Ok tt;
     on_read := Ok tt;
     on_save_content := Ok tt |}.

Definition asset_of (i : option Insight) (d : option Dashboard) (fmt : string) : ExportedAsset :=
  {| asset_id := 7; team_id := 2; insight := i; dashboard := d; export_format := fmt |}.

Definition an_insight : Insight := {| insight_id := 11; insight_query := "TrendsQuery" |}.
Definition a_dashboard : Dashboard := {| dashboard_id := 5; dashboard_filters := "" |}.

(** The bound every viewport width stays within. *)
Definition width_within (screenshot_width : ScreenWidth) (ev : Event) : Prop :=
  match ev with
  | SetWindowSize width _ =>
      int screenshot_width <= width <= Z.max (int screenshot_width) 1800
  | _ => True
  end.

(** The calls of the failure diagnostics (lines 215-226). *)
Definition diagnostics_events (w : World) (p : string) (driver : option Driver) : list Event :=
  match driver with
  | Some _ =>
      GetLog "browser"
      :: match on_get_log w with Ok _ => [AddAttachment "logs.txt"] | Raise _ => [] end
      ++ SaveScreenshot p
      :: match shot_result (on_save_screenshot w L223) with
         | Ok _ => [AddAttachment p]
         | Raise _ => []
         end
  | None => []
  end.


(** Whenever [m] returns normally, the files it leaves satisfy [Q]. *)
Definition leaves {A} (Q : gset string -> Prop) (m : M A) : Prop :=
  forall fs, match res (m fs) with Ok _ => Q (files (m fs)) | Raise _ => True end.

(** The world hands out a browser session when asked. *)
Definition acquired (w : World) : bool :=
  match on_get_driver w with Ok _ => true | Raise _ => false end.

(** The number of browser sessions a run acquired. *)
Definition sessions (w : World) (evs : list Event) : nat :=
  if acquired w then count is_GetDriver evs else 0%nat.

Definition no_session_calls (evs : list Event) : Prop :=
  count is_Quit evs = 0%nat /\ count is_GetDriver evs = 0%nat.

Definition quits_balance (w : World) (evs : list Event) : Prop :=
  count is_Quit evs = sessions w evs.

(** The calls of the report on a spinner timeout (lines 153-166). *)
Definition timeout_report (w : World) (p : string) : list Event :=
  [Log "image_exporter.timeout"; SetExtra "url_to_render"; SaveScreenshot p]
  ++ match shot_result (on_save_screenshot w L162) with
     | Ok _ => [AddAttachment p]
     | Raise _ => []
     end
  ++ [CaptureException None].

(** ** The measure pass in the words of the specification

    "query for a known visualization-container element; if present, take
    the greater of its bounding-box height and the overall document scroll
    height; if absent, use document scroll height alone". *)
Definition greater_of (x y q : Q) : Prop :=
  (x <= q)%Q /\ (y <= q)%Q /\ (q = x \/ q = y).

Definition spec_measured_height (d : Dom) (q : Q) : Prop :=
  (exists el, In el (nodes d) /\ is_viz_container el = true
              /\ greater_of (rect_height el) (inject_Z (body_scrollHeight d)) q)
  \/ ((forall el, In el (nodes d) -> is_viz_container el = false)
      /\ q = inject_Z (body_scrollHeight d)).

(** A viewport height that is the measure of page [d] plus the offset. *)
Definition measured_plus_offset (d : Dom) (h : PyVal) : Prop :=
  exists q, spec_measured_height d q /\ is_number h (q + (85 # 1)).

(** A run that starts no browser and never gets to [_screenshot_asset]. *)
Definition no_browser (evs : list Event) : Prop :=
  count is_browser_call evs = 0%nat /\ count is_Enter_screenshot_asset evs = 0%nat.

(** [m] never returns normally. *)
Definition fails {A} (m : M A) : Prop :=
  forall fs, exists e, res (m fs) = Raise e.

Definition missing_id : exn :=
  Exc Exception "Export is missing required dashboard or insight ID".

(** A run that never gets to [_screenshot_asset]. *)
Definition no_enter (evs : list Event) : Prop :=
  count is_Enter_screenshot_asset evs = 0%nat.

(** The two pages [_export_to_png] asks for. *)
Definition insight_url (w : World) (access_token : string) : string :=
  absolute_uri w ("/exporter?token=" +:+ access_token +:+ "&legend").

Definition dashboard_url (w : World) (access_token : string) : string :=
  absolute_uri w ("/exporter?token=" +:+ access_token).


(** ** More ways to read a run *)

Definition is_Counter (name : string) (ev : Event) : bool :=
  match ev with Counter n => String.eqb n name | _ => false end.

(** An exception handed to [capture_exception]. *)
Definition is_report (ev : Event) : bool :=
  match ev with CaptureException (Some _) => true | _ => false end.

Definition is_SaveContent (ev : Event) : bool :=
  match ev with SaveContent _ => true | _ => false end.

Definition is_ExecuteScript (ev : Event) : bool :=
  match ev with ExecuteScript _ => true | _ => false end.

(** The calls [export_image] makes itself, around [_export_to_png]. *)
Definition around_export_to_png (ev : Event) : bool :=
  match ev with
  | Enter_export_to_png _ | ProcessQueryDict _ _ | SetTag _ | Counter _ => true
  | _ => false
  end.

Definition site_url_error : exn :=
  Exc Exception
    "The SITE_URL is not set. The exporter must have HTTP access to the web app in order to work".

(** The five calls of the [except] clause of [export_image]. *)
Definition failure_report (e : exn) : list Event :=
  [SetTag "celery_task"; SetTag "team_id"; CaptureException (Some e);
   Log "image_exporter.failed"; Counter "EXPORT_FAILED_COUNTER"].

(** The recomputation of the insight, when there is one (lines 241-253). *)
Definition refresh_events (exported_asset : ExportedAsset) : list Event :=
  match insight exported_asset with
  | Some i => [ProcessQueryDict (insight_id i)
                 (option_map dashboard_id (dashboard exported_asset))]
  | None => []
  end.

Definition refresh_result (w : World) (exported_asset : ExportedAsset) : result unit :=
  match insight exported_asset with
  | Some _ => on_process_query_dict w
  | None => Ok tt
  end.

(** A relation between the files before and after holds of every run. *)
Definition frames {A} (Q : gset string -> gset string -> Prop) (m : M A) : Prop :=
  forall fs, Q fs (files (m fs)).

Definition frames_block {L A} (Q : gset string -> gset string -> Prop) (b : Block L A) : Prop :=
  forall fs, Q fs (files (snd (b fs))).

(** The files are as before, or the image has been written by a
    screenshot call that says so. *)
Definition screenshot_frame (w : World) (p : string) (fs fs' : gset string) : Prop :=
  fs' = fs
  \/ (fs' = {[ p ]} ∪ fs /\ exists site, shot_writes (on_save_screenshot w site) = true).


(** The exceptions that can leave [_screenshot_asset]: those raised by a
    browser call that is neither a diagnostic nor the spinner wait timing
    out. *)
Definition raised_by_browser (w : World) (e : exn) : Prop :=
  on_get_driver w = Raise e
  \/ (exists site, on_set_window_size w site = Raise e)
  \/ on_get w = Raise e
  \/ on_wait_marker w = Raise e
  \/ (on_wait_spinner w = Raise e /\ is_TimeoutException e = false)
  \/ (exists site, on_execute_script w site = Raise e)
  \/ shot_result (on_save_screenshot w L210) = Raise e
  \/ on_quit w = Raise e.

(** Lines 146-148 end with the first call that fails. *)
Definition navigate_result (w : World) : result unit :=
  match on_set_window_size w L146 with
  | Raise e => Raise e
  | Ok _ => match on_get w with
            | Raise e => Raise e
            | Ok _ => on_wait_marker w
            end
  end.

(** Lines 150-166 end well unless the wait fails otherwise than by timing
    out. *)
Definition wait_result (w : World) : result unit :=
  match on_wait_spinner w with
  | Ok _ => Ok tt
  | Raise e => if is_TimeoutException e then Ok tt else Raise e
  end.

(** Lines 168-210 end with the first call that fails, or as the capture
    ends. *)
Definition sizing_result (w : World) : result unit :=
  match on_execute_script w L169 with
  | Raise e => Raise e
  | Ok _ =>
  match on_execute_script w L179 with
  | Raise e => Raise e
  | Ok _ =>
  match on_set_window_size w L193 with
  | Raise e => Raise e
  | Ok _ =>
  match on_execute_script w L196 with
  | Raise e => Raise e
  | Ok _ =>
  match on_execute_script w L199 with
  | Raise e => Raise e
  | Ok _ =>
  match on_set_window_size w L209 with
  | Raise e => Raise e
  | Ok _ => shot_result (on_save_screenshot w L210)
  end end end end end end.

Definition render_result (w : World) : result unit :=
  match navigate_result w with
  | Raise e => Raise e
  | Ok _ => match wait_result w with
            | Raise e => Raise e
            | Ok _ => sizing_result w
            end
  end.

(** The calls of lines 146-148, up to the first that fails. *)
Definition navigate_calls (w : World) (u : string) (sw : ScreenWidth) (sel : CSSSelector)
    : list Event :=
  SetWindowSize (int sw) (PyInt 600)
  :: match on_set_window_size w L146 with
     | Raise _ => []
     | Ok _ =>
         DriverGet u
         :: match on_get w with
            | Raise _ => []
            | Ok _ => [WaitUntil 20 (css sel)]
            end
     end.

(** [calm d], except that the wait for the spinner fails without timing
    out. *)
Definition lost_window (d : Dom) : World :=
  {| SITE_URL := "https://app.example";
     absolute_uri := fun path => "https://app.example" +:+ path;
     uuid4 := "3f2a";
     on_makedirs := Ok tt;
     on_get_public_access_token := Ok "tok";
     on_process_query_dict := Ok tt;
     on_get_driver := Ok tt;
     on_set_window_size := fun _ => Ok tt;
     on_get := Ok tt;
     on_wait_marker := Ok tt;
     on_wait_spinner := Raise (Exc WebDriverException "no such window");
     on_execute_script := fun _ => Ok d;
     on_save_screenshot := fun _ => {| shot_result := Ok tt; shot_writes := true |};
     on_get_log := Ok tt;
     on_quit := Ok tt;
     on_read := Ok tt;
     on_save_content := Ok tt |}.

(** The exceptions a run handed to [capture_exception], in order. *)
Definition reports (evs : list Event) : list Event := List.filter is_report evs.

(** How the [try] block of [_screenshot_asset] ends, and how the function
    ends once [quit] has had its say. *)
Definition try_result (w : World) : result unit :=
  match on_get_driver w with
  | Raise e => Raise e
  | Ok _ => render_result w
  end.

Definition screenshot_result (w : World) : result unit :=
  match on_get_driver w with
  | Raise e => Raise e
  | Ok _ => match on_quit w with
            | Raise e' => Raise e'
            | Ok _ => render_result w
            end
  end.

(** The calls of lines 90-93 and 109 that precede [_screenshot_asset]. *)
Definition preliminaries (exported_asset : ExportedAsset) (fs : gset string) : list Event :=
  (if bool_decide (TMP_DIR ∈ fs) then [] else [Makedirs TMP_DIR])
  ++ [GetPublicAccessToken (asset_id exported_asset) 15; Log "exporting_asset"].

(** The files once the temporary directory is there. *)
Definition with_tmp_dir (fs : gset string) : gset string :=
  if bool_decide (TMP_DIR ∈ fs) then fs else {[ TMP_DIR ]} ∪ fs.

(** [calm d], except that the screenshot calls return without leaving a
    file (as [save_screenshot] does when writing fails). *)
Definition silent_capture (d : Dom) : World :=
  {| SITE_URL := "https://app.example";
     absolute_uri := fun path => "https://app.example" +:+ path;
     uuid4 := "3f2a";
     on_makedirs := Ok tt;
     on_get_public_access_token := Ok "tok";
     on_process_query_dict := Ok tt;
     on_get_driver := Ok tt;
     on_set_window_size := fun _ => Ok tt;
     on_get := Ok tt;
     on_wait_marker := Ok tt;
     on_wait_spinner := Ok tt;
     on_execute_script := fun _ => Ok d;
     on_save_screenshot := fun _ => {| shot_result := Ok tt; shot_writes := false |};
     on_get_log := Ok tt;
     on_quit := Ok tt;
     on_read := Ok tt;
     on_save_content := Ok tt |}.

(** The calls [_screenshot_asset] does not make: on the token service, the
    query engine, the storage, the file system, the counters and tags. *)
Definition outside_screenshot_asset (ev : Event) : bool :=
  match ev with
  | Enter_export_to_png _ | Makedirs _ | GetPublicAccessToken _ _ | ProcessQueryDict _ _
  | OpenRead _ | SaveContent _ | OsRemove _ | LogErrorIfSiteUrlNotReachable
  | SetTag _ | Counter _ => true
  | _ => false
  end.

Definition no_reports (evs : list Event) : Prop := reports evs = [].

(** The content of the asset is stored at most once; a run that returns
    has stored it; a run that raises after storing raises what
    [save_content] raised. *)
Definition stores_once {A} (w : World) (r : Run A) : Prop :=
  (count is_SaveContent (events r) <= 1)%nat
  /\ (forall a, res r = Ok a -> count is_SaveContent (events r) = 1%nat)
  /\ (forall e, res r = Raise e -> count is_SaveContent (events r) = 1%nat ->
      on_save_content w = Raise e).

Definition stores_nothing (evs : list Event) : Prop := count is_SaveContent evs = 0%nat.
(** * Properties *)

(** ** Reasoning about runs *)

Lemma res_bind {A B} (m : M A) (k : A -> M B) fs :
  res (bind m k fs) =
  match res (m fs) with Ok a => res (k a (files (m fs))) | Raise e => Raise e end.
Proof. unfold bind; destruct (res (m fs)); reflexivity. Qed.

Lemma events_bind {A B} (m : M A) (k : A -> M B) fs :
  events (bind m k fs) =
  match res (m fs) with
  | Ok a => events (m fs) ++ events (k a (files (m fs)))
  | Raise _ => events (m fs)
  end.
Proof. unfold bind; destruct (res (m fs)); reflexivity. Qed.

Lemma files_bind {A B} (m : M A) (k : A -> M B) fs :
  files (bind m k fs) =
  match res (m fs) with Ok a => files (k a (files (m fs))) | Raise _ => files (m fs) end.
Proof. unfold bind; destruct (res (m fs)); reflexivity. Qed.

Section Additive.

(** A property of event lists that the empty list has and that
    concatenation keeps carries over from the parts of a computation to
    the whole. *)
Variable P : list Event -> Prop.
Hypothesis P_nil : P [].
Hypothesis P_app : forall a b, P a -> P b -> P (a ++ b).

Lemma sat_ret {A} (a : A) : sat P (ret a).
Proof. intros fs; exact P_nil. Qed.

Lemma sat_raise {A} e : sat P (@raise A e).
Proof. intros fs; exact P_nil. Qed.

Lemma sat_lift {A} (r : result A) : sat P (lift r).
Proof. destruct r; [apply sat_ret | apply sat_raise]. Qed.

Lemma sat_emit ev : P [ev] -> sat P (emit ev).
Proof. intros H fs; exact H. Qed.

Lemma sat_bind {A B} (m : M A) (k : A -> M B) :
  sat P m -> (forall a, sat P (k a)) -> sat P (bind m k).
Proof.
  intros Hm Hk fs. rewrite events_bind.
  destruct (res (m fs)); [apply P_app; [apply Hm | apply Hk] | apply Hm].
Qed.

Lemma sat_try_except {A} (body : M A) catches handler :
  sat P body -> (forall e, sat P (handler e)) -> sat P (try_except body catches handler).
Proof.
  intros Hb Hh fs. unfold try_except.
  destruct (res (body fs)) as [a|e]; [apply Hb|].
  destruct (catches e); [cbn; apply P_app; [apply Hb | apply Hh] | apply Hb].
Qed.

Lemma sat_try_pass (body : M unit) : sat P body -> sat P (try_pass body).
Proof. intros Hb. apply sat_try_except; [exact Hb | intros; apply sat_ret]. Qed.

Lemma sat_try_finally {A} (body : M A) fin :
  sat P body -> sat P fin -> sat P (try_finally body fin).
Proof. intros Hb Hf fs. cbn. apply P_app; [apply Hb | apply Hf]. Qed.

Lemma sat_try_except_finally {L A} (block : Block L A) handler fin :
  sat_block P block -> (forall l e, sat P (handler l e)) -> (forall l, sat P (fin l)) ->
  sat P (try_except_finally block handler fin).
Proof.
  intros Hb Hh Hf fs. unfold try_except_finally.
  specialize (Hb fs). destruct (block fs) as [l r]; cbn in Hb.
  cbn. apply P_app; [|apply Hf].
  destruct (res r); [exact Hb | cbn; apply P_app; [exact Hb | apply Hh]].
Qed.

Lemma sat_path_exists p : sat P (path_exists p).
Proof. intros fs; exact P_nil. Qed.

Lemma sat_write_file p : sat P (write_file p).
Proof. intros fs; exact P_nil. Qed.

Lemma sat_os_remove p : P [OsRemove p] -> sat P (os_remove p).
Proof. intros H fs. unfold os_remove. destruct (bool_decide _); exact H. Qed.

Lemma sat_get_driver w : P [GetDriver] -> sat P (get_driver w).
Proof.
  intros H. unfold get_driver. apply sat_bind; [apply sat_emit, H | intros; apply sat_lift].
Qed.

Lemma sat_block_screenshot_try w image_path url sw sel :
  P [GetDriver] ->
  sat P (render w image_path url sw sel) ->
  sat_block P (screenshot_try w image_path url sw sel).
Proof.
  intros Hg Hr fs. unfold screenshot_try.
  pose proof (sat_get_driver w Hg fs) as H.
  destruct (res (get_driver w fs)); unfold after; cbn [snd events].
  - apply P_app; [exact H | apply Hr].
  - exact H.
Qed.

End Additive.

(** ** What each browser call amounts to *)

Lemma get_driver_run w fs :
  get_driver w fs = {| res := on_get_driver w; events := [GetDriver]; files := fs |}.
Proof. unfold get_driver, bind; cbn. destruct (on_get_driver w); reflexivity. Qed.

Lemma set_window_size_run w site x h fs :
  set_window_size w site x h fs =
  {| res := on_set_window_size w site; events := [SetWindowSize x h]; files := fs |}.
Proof. unfold set_window_size, bind; cbn. destruct (on_set_window_size w site); reflexivity. Qed.

Lemma driver_get_run w url fs :
  driver_get w url fs = {| res := on_get w; events := [DriverGet url]; files := fs |}.
Proof. unfold driver_get, bind; cbn. destruct (on_get w); reflexivity. Qed.

Lemma wait_until_run w t s fs :
  wait_until w t s fs = {| res := on_wait_marker w; events := [WaitUntil t s]; files := fs |}.
Proof. unfold wait_until, bind; cbn. destruct (on_wait_marker w); reflexivity. Qed.

Lemma wait_until_not_run w t c fs :
  wait_until_not w t c fs =
  {| res := on_wait_spinner w; events := [WaitUntilNot t c]; files := fs |}.
Proof. unfold wait_until_not, bind; cbn. destruct (on_wait_spinner w); reflexivity. Qed.

Lemma execute_script_run w site s fs :
  execute_script w site s fs =
  {| res := match on_execute_script w site with
            | Ok d => Ok (js_to_python (run_script s d))
            | Raise e => Raise e
            end;
     events := [ExecuteScript s]; files := fs |}.
Proof. unfold execute_script, bind; cbn. destruct (on_execute_script w site); reflexivity. Qed.

Lemma save_screenshot_run w site p fs :
  save_screenshot w site p fs =
  {| res := shot_result (on_save_screenshot w site);
     events := [SaveScreenshot p];
     files := if shot_writes (on_save_screenshot w site) then {[ p ]} ∪ fs else fs |}.
Proof.
  unfold save_screenshot, bind; cbn.
  destruct (on_save_screenshot w site) as [r b]; destruct b, r; reflexivity.
Qed.

Lemma get_log_run w k fs :
  get_log w k fs = {| res := on_get_log w; events := [GetLog k]; files := fs |}.
Proof. unfold get_log, bind; cbn. destruct (on_get_log w); reflexivity. Qed.

Lemma quit_run w fs :
  quit w fs = {| res := on_quit w; events := [Quit]; files := fs |}.
Proof. unfold quit, bind; cbn. destruct (on_quit w); reflexivity. Qed.

Lemma lift_run {A} (r : result A) fs :
  lift r fs = {| res := r; events := []; files := fs |}.
Proof. destruct r; reflexivity. Qed.

Lemma emit_run ev fs : emit ev fs = {| res := Ok tt; events := [ev]; files := fs |}.
Proof. reflexivity. Qed.

Lemma try_pass_res (m : M unit) fs : res (try_pass m fs) = Ok tt.
Proof.
  unfold try_pass, try_except. destruct (res (m fs)) as [[]|e] eqn:E; [exact E | reflexivity].
Qed.

Lemma try_pass_events (m : M unit) fs : events (try_pass m fs) = events (m fs).
Proof.
  unfold try_pass, try_except. destruct (res (m fs)); [reflexivity|]. cbn. apply app_nil_r.
Qed.

(** The spinner wait, whichever way it goes. *)
Lemma wait_nothing_loading_res w p u fs :
  res (wait_nothing_loading w p u fs) =
  match on_wait_spinner w with
  | Ok _ => Ok tt
  | Raise e => if is_TimeoutException e then Ok tt else Raise e
  end.
Proof.
  unfold wait_nothing_loading, try_except. rewrite wait_until_not_run. cbn [res].
  destruct (on_wait_spinner w) as [[]|e]; [reflexivity|].
  destruct (is_TimeoutException e); [|reflexivity].
  cbn [res events files]. rewrite !res_bind. cbn [emit res files].
  rewrite try_pass_res. reflexivity.
Qed.

Lemma wait_nothing_loading_events w p u fs :
  events (wait_nothing_loading w p u fs) =
  WaitUntilNot 20 "Spinner" ::
  match on_wait_spinner w with
  | Ok _ => []
  | Raise e =>
      if is_TimeoutException e
      then [Log "image_exporter.timeout"; SetExtra "url_to_render"; SaveScreenshot p]
           ++ match shot_result (on_save_screenshot w L162) with
              | Ok _ => [AddAttachment p]
              | Raise _ => []
              end
           ++ [CaptureException None]
      else []
  end.
Proof.
  unfold wait_nothing_loading, try_except. rewrite wait_until_not_run. cbn [res events].
  destruct (on_wait_spinner w) as [[]|e]; [reflexivity|].
  destruct (is_TimeoutException e); [|reflexivity].
  cbn [res events files]. rewrite !events_bind. cbn [emit res events files].
  rewrite try_pass_res, try_pass_events, events_bind, save_screenshot_run. cbn.
  destruct (shot_result _); reflexivity.
Qed.

(** Steps through a run: projects the next bind, replaces the call by what
    it amounts to and uses what is known about the world. *)
Ltac run_step :=
  rewrite ?events_bind, ?res_bind, ?files_bind;
  rewrite ?get_driver_run, ?set_window_size_run, ?driver_get_run, ?wait_until_run,
          ?wait_nothing_loading_res, ?wait_nothing_loading_events,
          ?execute_script_run, ?save_screenshot_run, ?get_log_run,
          ?quit_run, ?lift_run, ?emit_run;
  cbn [res events files];
  repeat match goal with H : _ = _ |- _ => rewrite H end;
  cbn [res events files app].

(** Walks through a computation of the module, leaving the side
    conditions on single events. *)
Ltac sat_walk Hnil Happ :=
  repeat first
    [ apply (sat_ret _ Hnil)
    | apply (sat_raise _ Hnil)
    | apply (sat_lift _ Hnil)
    | apply (sat_path_exists _ Hnil)
    | apply (sat_write_file _ Hnil)
    | apply sat_os_remove
    | apply sat_emit
    | apply (sat_bind _ Happ); [|intros]
    | apply (sat_try_pass _ Hnil Happ)
    | apply (sat_try_except _ Happ); [|intros]
    | apply (sat_try_finally _ Happ)
    | match goal with
      | |- sat _ (if ?b then _ else _) => destruct b
      | |- sat _ (match ?x with Some _ => _ | None => _ end) => destruct x
      | x : prod _ _ |- _ => destruct x
      end ].

Ltac unfold_driver :=
  unfold get_driver, set_window_size, driver_get, wait_until, wait_until_not,
         execute_script, save_screenshot, get_log, quit.

(** ** Sample runs *)

(** An insight whose chart is 400 high in a document 300 high, no table:
    the window stays 800 wide and becomes 400 + 85 high; the file is
    written, read, stored and removed. *)
Example insight_export_run :
  let r := _export_to_png (calm (page [viz_of_height (400 # 1)] 300))
             (asset_of (Some an_insight) None "image/png") ∅ in
  res r = Ok tt
  /\ events r =
     [Enter_export_to_png 7; Makedirs "/tmp"; GetPublicAccessToken 7 15;
      Log "exporting_asset";
      Enter_screenshot_asset "/tmp/3f2a.png" "https://app.example/exporter?token=tok&legend"
        W800 ExportedInsight;
      GetDriver; SetWindowSize 800 (PyInt 600);
      DriverGet "https://app.example/exporter?token=tok&legend";
      WaitUntil 20 ".ExportedInsight"; WaitUntilNot 20 "Spinner";
      ExecuteScript MEASURE_HEIGHT; ExecuteScript TABLE_WIDTH;
      SetWindowSize 800 (PyInt 485); ExecuteScript (SETTLE 500);
      ExecuteScript MEASURE_HEIGHT; SetWindowSize 800 (PyInt 485);
      SaveScreenshot "/tmp/3f2a.png"; Quit;
      OpenRead "/tmp/3f2a.png"; SaveContent 7; OsRemove "/tmp/3f2a.png"].
Proof. cbn zeta. split; vm_compute; reflexivity. Qed.

(** An insight with a table 600 wide: the hint is 900 and the window is
    widened to 900. *)
Example insight_with_table_run :
  window_widths
    (events (_export_to_png (calm (page [table_of_width 600] 900))
               (asset_of (Some an_insight) None "image/png") ∅))
  = [800; 900; 900].
Proof. vm_compute. reflexivity. Qed.

(** The marker never shows up: the error report is attempted, the browser
    is closed, the timeout is raised. *)
Example no_marker_run :
  let r := _export_to_png (no_marker (page [] 0))
             (asset_of (Some an_insight) None "image/png") ∅ in
  res r = Raise (Exc TimeoutException "")
  /\ events r =
     [Enter_export_to_png 7; Makedirs "/tmp"; GetPublicAccessToken 7 15;
      Log "exporting_asset";
      Enter_screenshot_asset "/tmp/3f2a.png" "https://app.example/exporter?token=tok&legend"
        W800 ExportedInsight;
      GetDriver; SetWindowSize 800 (PyInt 600);
      DriverGet "https://app.example/exporter?token=tok&legend";
      WaitUntil 20 ".ExportedInsight";
      SetExtra "url_to_render"; GetLog "browser"; SaveScreenshot "/tmp/3f2a.png";
      CaptureException (Some (Exc TimeoutException "")); Quit;
      LogErrorIfSiteUrlNotReachable].
Proof. cbn zeta. split; vm_compute; reflexivity. Qed.

(** ** Viewport widths *)

Lemma resolve_width_bounds sw v :
  int sw <= resolve_width sw v <= Z.max (int sw) 1800.
Proof. destruct sw, v; cbn; try destruct (z =? 0); lia. Qed.

Lemma Forall_none {A} (Q : A -> Prop) : Forall Q [].
Proof. constructor. Qed.

Lemma Forall_app_both {A} (Q : A -> Prop) (a b : list A) :
  Forall Q a -> Forall Q b -> Forall Q (a ++ b).
Proof. intros Ha Hb. apply Forall_app; split; assumption. Qed.

Lemma render_widths w image_path url sw sel :
  sat (Forall (width_within sw)) (render w image_path url sw sel).
Proof.
  unfold render, wait_nothing_loading. unfold_driver.
  sat_walk (Forall_none (width_within sw)) (Forall_app_both (width_within sw));
    repeat constructor; cbn; try apply resolve_width_bounds; lia.
Qed.

Lemma screenshot_asset_widths w image_path url sw sel :
  sat (Forall (width_within sw)) (_screenshot_asset w image_path url sw sel).
Proof.
  unfold _screenshot_asset.
  apply (sat_bind _ (Forall_app_both (width_within sw))); [|intros _].
  { apply sat_emit. repeat constructor. }
  apply (sat_try_except_finally _ (Forall_app_both (width_within sw))).
  - apply (sat_block_screenshot_try _ (Forall_none _) (Forall_app_both _));
      [repeat constructor | apply render_widths].
  - intros l e. unfold screenshot_except. unfold_driver.
    sat_walk (Forall_none (width_within sw)) (Forall_app_both (width_within sw));
      repeat constructor.
  - intros l. unfold screenshot_finally. unfold_driver.
    sat_walk (Forall_none (width_within sw)) (Forall_app_both (width_within sw));
      repeat constructor.
Qed.

Lemma window_widths_within sw evs :
  Forall (width_within sw) evs ->
  Forall (fun x => int sw <= x <= Z.max (int sw) 1800) (window_widths evs).
Proof.
  induction 1 as [|ev evs Hev _ IH]; cbn; [constructor|].
  destruct ev; try exact IH. constructor; [exact Hev | exact IH].
Qed.

Lemma last_Some_within (Q : Z -> Prop) xs :
  Forall Q xs ->
  match List.last (List.map Some xs) None with Some x => Q x | None => True end.
Proof.
  induction 1 as [|x xs Hx Hxs IH]; cbn; [exact I|].
  destruct xs as [|y ys]; [exact Hx | exact IH].
Qed.

(** C1, as the specification states it, fails for a dashboard: the export of
    a dashboard whose table is 1300 wide (hint 1950) captures at width
    1920, which is above 1800. *)
Lemma C1_dashboard_exceeds_1800 :
  final_width
    (events (_export_to_png (calm (page [table_of_width 1300] 900))
               (asset_of None (Some a_dashboard) "image/png") ∅)) = Some 1920
  /\ ~ (1920 <= 1800).
Proof. split; [vm_compute; reflexivity | lia]. Qed.

(** C1, amended: in every run of [_screenshot_asset], whatever the browser
    answers, the last viewport width applied is at least the requested
    width and at most the larger of the requested width and 1800: between
    800 and 1800 for an insight, exactly 1920 for a dashboard. *)
Theorem C1_final_width_bounds w image_path url sw sel fs :
  match final_width (events (_screenshot_asset w image_path url sw sel fs)) with
  | Some x =>
      int sw <= x <= Z.max (int sw) 1800
      /\ match sw with W800 => 800 <= x <= 1800 | W1920 => x = 1920 end
  | None => True
  end.
Proof.
  pose proof (screenshot_asset_widths w image_path url sw sel fs) as H.
  apply window_widths_within in H.
  apply (last_Some_within _ _) in H. unfold final_width.
  destruct (List.last _ _) as [x|]; [|exact I].
  split; [exact H|]. destruct sw; cbn in H; lia.
Qed.

(** ** The shape of a run of [_screenshot_asset] *)

Lemma screenshot_except_res w p u driver e fs :
  res (screenshot_except w p u driver e fs) = Raise e.
Proof.
  unfold screenshot_except. rewrite !res_bind. cbn [emit res files].
  destruct driver as [d|].
  - rewrite res_bind, !try_pass_res. reflexivity.
  - reflexivity.
Qed.

Lemma screenshot_except_events w p u driver e fs :
  events (screenshot_except w p u driver e fs) =
  SetExtra "url_to_render" :: diagnostics_events w p driver ++ [CaptureException (Some e)].
Proof.
  unfold screenshot_except, diagnostics_events.
  rewrite !events_bind. cbn [emit res events files].
  destruct driver as [d|].
  - rewrite res_bind, !try_pass_res, events_bind, try_pass_res, !try_pass_events.
    rewrite !events_bind, get_log_run, save_screenshot_run. cbn [res events files].
    destruct (on_get_log w), (shot_result _); reflexivity.
  - reflexivity.
Qed.

Lemma try_except_finally_res {L A} (block : Block L A) handler fin fs :
  res (try_except_finally block handler fin fs) =
  let l := fst (block fs) in
  let r := snd (block fs) in
  let r1 := match res r with
            | Ok _ => r
            | Raise e => after r (handler l e (files r))
            end in
  match res (fin l (files r1)) with Ok _ => res r1 | Raise e' => Raise e' end.
Proof. unfold try_except_finally. destruct (block fs) as [l r]. reflexivity. Qed.

Lemma try_except_finally_events {L A} (block : Block L A) handler fin fs :
  events (try_except_finally block handler fin fs) =
  let l := fst (block fs) in
  let r := snd (block fs) in
  let r1 := match res r with
            | Ok _ => r
            | Raise e => after r (handler l e (files r))
            end in
  events r1 ++ events (fin l (files r1)).
Proof. unfold try_except_finally. destruct (block fs) as [l r]. reflexivity. Qed.

Lemma screenshot_try_run w p u sw sel fs :
  screenshot_try w p u sw sel fs =
  match on_get_driver w with
  | Ok d =>
      (Some d, after {| res := Ok d; events := [GetDriver]; files := fs |}
                     (render w p u sw sel fs))
  | Raise e => (None, {| res := Raise e; events := [GetDriver]; files := fs |})
  end.
Proof.
  unfold screenshot_try. rewrite get_driver_run. cbn [res events files].
  destruct (on_get_driver w); reflexivity.
Qed.

Lemma screenshot_asset_res w p u sw sel fs :
  res (_screenshot_asset w p u sw sel fs) =
  match on_get_driver w with
  | Raise e => Raise e
  | Ok _ =>
      match on_quit w with
      | Raise e' => Raise e'
      | Ok _ => res (render w p u sw sel fs)
      end
  end.
Proof.
  unfold _screenshot_asset. rewrite res_bind. cbn [emit res files].
  rewrite try_except_finally_res, screenshot_try_run.
  generalize (render w p u sw sel fs). intros r.
  destruct (on_get_driver w) as [d|e]; cbn [fst snd res files after screenshot_finally].
  - rewrite quit_run. cbn [res].
    destruct (res r) as [[]|e] eqn:E; cbn [res after];
      rewrite ?E, ?screenshot_except_res; destruct (on_quit w); reflexivity.
  - rewrite screenshot_except_res. reflexivity.
Qed.

Lemma screenshot_asset_events w p u sw sel fs :
  events (_screenshot_asset w p u sw sel fs) =
  Enter_screenshot_asset p u sw sel :: GetDriver ::
  match on_get_driver w with
  | Raise e => events (screenshot_except w p u None e fs)
  | Ok d =>
      events (render w p u sw sel fs)
      ++ match res (render w p u sw sel fs) with
         | Ok _ => []
         | Raise e =>
             events (screenshot_except w p u (Some d) e (files (render w p u sw sel fs)))
         end
      ++ [Quit]
  end.
Proof.
  unfold _screenshot_asset. rewrite events_bind. cbn [emit res events files app].
  f_equal.
  rewrite try_except_finally_events, screenshot_try_run.
  generalize (render w p u sw sel fs). intros r.
  destruct (on_get_driver w) as [d|e]; cbn [fst snd res events files after screenshot_finally app].
  - f_equal. rewrite quit_run. cbn [events].
    destruct (res r) as [[]|e]; cbn [res events files after app].
    + reflexivity.
    + generalize (events (screenshot_except w p u (Some d) e (files r))). intros l.
      rewrite <- app_assoc. reflexivity.
  - cbn [ret events]. rewrite app_nil_r. reflexivity.
Qed.

(** ** C7: the failure diagnostics *)





(** ** C2: cleanup *)

Lemma count_app f (a b : list Event) : count f (a ++ b) = (count f a + count f b)%nat.
Proof. unfold count. rewrite List.filter_app, List.length_app. reflexivity. Qed.

Lemma no_session_calls_nil : no_session_calls [].
Proof. split; reflexivity. Qed.

Lemma no_session_calls_app a b :
  no_session_calls a -> no_session_calls b -> no_session_calls (a ++ b).
Proof. unfold no_session_calls. rewrite !count_app. lia. Qed.

Lemma quits_balance_nil w : quits_balance w [].
Proof. unfold quits_balance, sessions. destruct (acquired w); reflexivity. Qed.

Lemma quits_balance_app w a b :
  quits_balance w a -> quits_balance w b -> quits_balance w (a ++ b).
Proof.
  unfold quits_balance, sessions. rewrite !count_app. destruct (acquired w); lia.
Qed.

Lemma quits_balance_other w ev :
  is_Quit ev = false -> is_GetDriver ev = false -> quits_balance w [ev].
Proof.
  intros H1 H2. unfold quits_balance, sessions, count. cbn. rewrite H1, H2.
  destruct (acquired w); reflexivity.
Qed.

Lemma render_no_session_calls w p u sw sel :
  sat no_session_calls (render w p u sw sel).
Proof.
  unfold render, navigate, wait_nothing_loading, size_and_capture. unfold_driver.
  sat_walk no_session_calls_nil no_session_calls_app; split; reflexivity.
Qed.

Lemma screenshot_except_no_session_calls w p u driver e :
  sat no_session_calls (screenshot_except w p u driver e).
Proof.
  unfold screenshot_except. unfold_driver.
  sat_walk no_session_calls_nil no_session_calls_app; split; reflexivity.
Qed.

Lemma last_snoc (a : list Event) ev : List.last (a ++ [ev]) GetDriver = ev.
Proof. apply List.last_last. Qed.

(** What the session costs: one [get_driver] per run, and one [quit],
    made last, exactly when the session was handed out. *)
Lemma screenshot_asset_session w p u sw sel fs :
  let evs := events (_screenshot_asset w p u sw sel fs) in
  count is_GetDriver evs = 1%nat
  /\ if acquired w
     then count is_Quit evs = 1%nat /\ List.last evs GetDriver = Quit
     else count is_Quit evs = 0%nat.
Proof.
  cbn zeta. rewrite screenshot_asset_events. unfold acquired.
  pose proof (render_no_session_calls w p u sw sel fs) as [Rq Rg].
  destruct (on_get_driver w) as [d|e0].
  - assert (no_session_calls
              match res (render w p u sw sel fs) with
              | Ok _ => []
              | Raise e =>
                  events (screenshot_except w p u (Some d) e (files (render w p u sw sel fs)))
              end) as [Hq Hg].
    { destruct (res (render w p u sw sel fs));
        [apply no_session_calls_nil | apply screenshot_except_no_session_calls]. }
    change (?a :: ?b :: ?l) with ([a; b] ++ l).
    rewrite !count_app, Rq, Rg, Hq, Hg. repeat split.
    rewrite !app_assoc. apply last_snoc.
  - pose proof (screenshot_except_no_session_calls w p u None e0 fs) as [Hq Hg].
    change (?a :: ?b :: ?l) with ([a; b] ++ l).
    rewrite !count_app, Hq, Hg. split; reflexivity.
Qed.

Lemma screenshot_asset_balance w p u sw sel :
  sat (quits_balance w) (_screenshot_asset w p u sw sel).
Proof.
  intros fs. pose proof (screenshot_asset_session w p u sw sel fs) as [Hg Hq].
  cbn zeta in Hq, Hg. unfold quits_balance, sessions. rewrite Hg.
  destruct (acquired w); [apply Hq | exact Hq].
Qed.

Lemma export_to_png_balance w exported_asset :
  sat (quits_balance w) (_export_to_png w exported_asset).
Proof.
  unfold _export_to_png.
  apply (sat_bind _ (quits_balance_app w)); [|intros _].
  { apply sat_emit, quits_balance_other; reflexivity. }
  apply (sat_try_except_finally _ (quits_balance_app w)).
  - intros fs. unfold export_try.
    destruct (negb (truthy (SITE_URL w))); cbn [leaving snd].
    + apply quits_balance_nil.
    + revert fs. change (sat (quits_balance w) (export_steps w exported_asset (image_path_of w))).
      unfold export_steps.
      sat_walk (quits_balance_nil w) (quits_balance_app w);
        try (apply quits_balance_other; reflexivity);
        try apply screenshot_asset_balance.
  - intros l e. unfold export_except.
    sat_walk (quits_balance_nil w) (quits_balance_app w);
      apply quits_balance_other; reflexivity.
  - intros l. apply (sat_ret _ (quits_balance_nil w)).
Qed.

Lemma leaves_bind {A B} Q (m : M A) (k : A -> M B) :
  (forall a, leaves Q (k a)) -> leaves Q (bind m k).
Proof.
  intros Hk fs. rewrite res_bind, files_bind.
  destruct (res (m fs)) as [a|e]; [apply Hk | exact I].
Qed.

Lemma leaves_os_remove p : leaves (fun fs => p ∉ fs) (os_remove p).
Proof.
  intros fs. unfold os_remove. destruct (bool_decide (p ∈ fs)); cbn; [|exact I].
  apply not_elem_of_difference. right. apply elem_of_singleton. reflexivity.
Qed.

Lemma export_steps_leaves w exported_asset p :
  leaves (fun fs => p ∉ fs) (export_steps w exported_asset p).
Proof.
  unfold export_steps.
  repeat (apply leaves_bind; intros).
  destruct a3 as [[url sel] sw].
  repeat (apply leaves_bind; intros).
  unfold read_and_store.
  repeat (apply leaves_bind; intros).
  apply leaves_os_remove.
Qed.

Lemma image_path_truthy w : truthy (image_path_of w) = true.
Proof. reflexivity. Qed.

Lemma export_except_files w p e fs :
  truthy p = true -> p ∉ files (export_except w (Some p) e fs).
Proof.
  intros Hp. unfold export_except. rewrite Hp.
  rewrite !files_bind, !res_bind. cbn [path_exists emit raise res files].
  destruct (decide (p ∈ fs)) as [Hin|Hin].
  - rewrite bool_decide_eq_true_2 by exact Hin.
    unfold os_remove. rewrite bool_decide_eq_true_2 by exact Hin. cbn.
    apply not_elem_of_difference. right. apply elem_of_singleton. reflexivity.
  - rewrite bool_decide_eq_false_2 by exact Hin. cbn. exact Hin.
Qed.

(** C2: on every path through [_export_to_png] - success, an exception at
    any browser call, a failure before the browser starts - the temporary
    image file is gone when the function is left, and [quit] is called
    once for every session that was acquired and never otherwise; inside
    [_screenshot_asset], [quit] is the last call made. *)
Theorem C2_cleanup_on_every_path w exported_asset fs :
  image_path_of w ∉ fs ->
  let r := _export_to_png w exported_asset fs in
  (image_path_of w ∉ files r)
  /\ count is_Quit (events r) = sessions w (events r)
  /\ (forall p u sw sel fs',
        let evs := events (_screenshot_asset w p u sw sel fs') in
        count is_GetDriver evs = 1%nat
        /\ if acquired w
           then count is_Quit evs = 1%nat /\ List.last evs GetDriver = Quit
           else count is_Quit evs = 0%nat).
Proof.
  intros Hfresh r. split; [|split].
  - subst r. unfold _export_to_png. rewrite files_bind. cbn [emit res files].
    unfold try_except_finally, export_try.
    destruct (negb (truthy (SITE_URL w))); cbn [leaving res events files after ret raise].
    + exact Hfresh.
    + pose proof (export_steps_leaves w exported_asset (image_path_of w) fs) as H.
      destruct (res (export_steps w exported_asset (image_path_of w) fs)) as [a|e];
        cbn [res events files after].
      * exact H.
      * apply export_except_files, image_path_truthy.
  - apply export_to_png_balance.
  - intros. apply screenshot_asset_session.
Qed.

Lemma C2_witness :
  (image_path_of (no_marker (page [] 0)))
    ∉ (files (_export_to_png (no_marker (page [] 0))
                (asset_of (Some an_insight) None "image/png") ∅)).
Proof.
  apply (C2_cleanup_on_every_path (no_marker (page [] 0))
           (asset_of (Some an_insight) None "image/png") ∅).
  apply not_elem_of_empty.
Defined.

(** ** C6: a spinner that stays *)

Lemma steady_ret {A} (a : A) : steady (ret a).
Proof. intros fs1 fs2; split; reflexivity. Qed.

Lemma steady_raise {A} e : steady (@raise A e).
Proof. intros fs1 fs2; split; reflexivity. Qed.

Lemma steady_lift {A} (r : result A) : steady (lift r).
Proof. destruct r; [apply steady_ret | apply steady_raise]. Qed.

Lemma steady_emit ev : steady (emit ev).
Proof. intros fs1 fs2; split; reflexivity. Qed.

Lemma steady_write_file p : steady (write_file p).
Proof. intros fs1 fs2; split; reflexivity. Qed.

Lemma steady_bind {A B} (m : M A) (k : A -> M B) :
  steady m -> (forall a, steady (k a)) -> steady (bind m k).
Proof.
  intros Hm Hk fs1 fs2. rewrite !res_bind, !events_bind.
  destruct (Hm fs1 fs2) as [Hr He]. rewrite Hr, He.
  destruct (res (m fs2)) as [a|e]; [|split; reflexivity].
  destruct (Hk a (files (m fs1)) (files (m fs2))) as [Hr' He'].
  rewrite Hr', He'. split; reflexivity.
Qed.

Lemma steady_try_except {A} (body : M A) catches handler :
  steady body -> (forall e, steady (handler e)) -> steady (try_except body catches handler).
Proof.
  intros Hb Hh fs1 fs2. unfold try_except.
  destruct (Hb fs1 fs2) as [Hr He]. rewrite Hr.
  destruct (res (body fs2)) as [a|e] eqn:E.
  - rewrite <- Hr in E. split; [congruence | exact He].
  - destruct (catches e).
    + cbn [res events]. destruct (Hh e (files (body fs1)) (files (body fs2))) as [Hr' He'].
      rewrite Hr', He', He. split; reflexivity.
    + rewrite <- Hr in E. split; [congruence | exact He].
Qed.

Ltac steady_walk :=
  repeat first
    [ apply steady_ret | apply steady_raise | apply steady_lift | apply steady_emit
    | apply steady_write_file
    | apply steady_bind; [|intros]
    | apply steady_try_except; [|intros]
    | match goal with
      | |- steady (if ?b then _ else _) => destruct b
      | |- steady (match ?x with Some _ => _ | None => _ end) => destruct x
      end ].

Lemma size_and_capture_steady w p sw : steady (size_and_capture w p sw).
Proof. unfold size_and_capture. unfold_driver. steady_walk. Qed.

Lemma size_and_capture_starts w p sw fs :
  hd_error (events (size_and_capture w p sw fs)) = Some (ExecuteScript MEASURE_HEIGHT).
Proof.
  unfold size_and_capture. rewrite events_bind, execute_script_run. cbn [res events].
  destruct (on_execute_script w L169); reflexivity.
Qed.

Lemma wait_nothing_loading_timeout w p u fs msg :
  on_wait_spinner w = Raise (Exc TimeoutException msg) ->
  res (wait_nothing_loading w p u fs) = Ok tt
  /\ events (wait_nothing_loading w p u fs) = WaitUntilNot 20 "Spinner" :: timeout_report w p.
Proof.
  intros H. rewrite wait_nothing_loading_res, wait_nothing_loading_events, H.
  split; reflexivity.
Qed.

Lemma wait_nothing_loading_gone w p u fs :
  res (wait_nothing_loading (spinner_gone w) p u fs) = Ok tt
  /\ events (wait_nothing_loading (spinner_gone w) p u fs) = [WaitUntilNot 20 "Spinner"].
Proof.
  rewrite wait_nothing_loading_res, wait_nothing_loading_events. split; reflexivity.
Qed.

Lemma render_spinner_gone w p u sw sel fs :
  render (spinner_gone w) p u sw sel fs =
  (navigate w u sw sel ;;
   wait_nothing_loading (spinner_gone w) p u ;;
   size_and_capture w p sw) fs.
Proof. reflexivity. Qed.

Lemma render_timeout_res w p u sw sel fs msg :
  on_wait_spinner w = Raise (Exc TimeoutException msg) ->
  res (render w p u sw sel fs) = res (render (spinner_gone w) p u sw sel fs).
Proof.
  intros H. rewrite render_spinner_gone. unfold render. rewrite !res_bind.
  destruct (res (navigate w u sw sel fs)) as [[]|e]; [|reflexivity].
  rewrite ?res_bind.
  destruct (wait_nothing_loading_timeout w p u (files (navigate w u sw sel fs)) msg H) as [-> _].
  destruct (wait_nothing_loading_gone w p u (files (navigate w u sw sel fs))) as [-> _].
  apply size_and_capture_steady.
Qed.

Lemma render_events_navigated w p u sw sel fs :
  res (navigate w u sw sel fs) = Ok tt ->
  events (render w p u sw sel fs) =
  events (navigate w u sw sel fs)
  ++ events (wait_nothing_loading w p u (files (navigate w u sw sel fs)))
  ++ match res (wait_nothing_loading w p u (files (navigate w u sw sel fs))) with
     | Ok _ =>
         events (size_and_capture w p sw
                   (files (wait_nothing_loading w p u (files (navigate w u sw sel fs)))))
     | Raise _ => []
     end.
Proof.
  intros H. unfold render. rewrite events_bind, H, events_bind.
  destruct (res (wait_nothing_loading w p u _)); [reflexivity | rewrite app_nil_r; reflexivity].
Qed.

(** C6: when the wait for the spinner times out, [_screenshot_asset] ends
    exactly as it does in the same world with the spinner gone in time, so
    the timeout never leaves the function; and once the page is open, the
    calls of the run are those of that other run with the report on the
    timeout (log, best-effort screenshot, error report) put in after the
    wait: the next call is the height measurement, followed by whatever
    resizing and capturing the run without a timeout does. *)
Theorem C6_spinner_timeout_absorbed w p u sw sel fs msg :
  on_wait_spinner w = Raise (Exc TimeoutException msg) ->
  let r := _screenshot_asset w p u sw sel fs in
  let r' := _screenshot_asset (spinner_gone w) p u sw sel fs in
  res r = res r'
  /\ (on_get_driver w = Ok tt ->
      res (navigate w u sw sel fs) = Ok tt ->
      exists before rest,
        events r' = before ++ [WaitUntilNot 20 "Spinner"] ++ rest
        /\ events r = before ++ [WaitUntilNot 20 "Spinner"] ++ timeout_report w p ++ rest
        /\ hd_error rest = Some (ExecuteScript MEASURE_HEIGHT)).
Proof.
  intros H r r'. subst r r'. split.
  - rewrite !screenshot_asset_res. cbn [spinner_gone on_get_driver on_quit].
    rewrite (render_timeout_res w p u sw sel fs msg H). reflexivity.
  - intros Hd Hn.
    pose proof (render_timeout_res w p u sw sel fs msg H) as Hres.
    rewrite !screenshot_asset_events. cbn [spinner_gone on_get_driver].
    rewrite Hd, <- Hres.
    rewrite (render_events_navigated (spinner_gone w)) by exact Hn.
    rewrite (render_events_navigated w) by exact Hn.
    change (navigate (spinner_gone w) u sw sel) with (navigate w u sw sel).
    set (fs0 := files (navigate w u sw sel fs)).
    destruct (wait_nothing_loading_timeout w p u fs0 msg H) as [-> ->].
    destruct (wait_nothing_loading_gone w p u fs0) as [-> ->].
    change (size_and_capture (spinner_gone w) p sw) with (size_and_capture w p sw).
    set (f := files (wait_nothing_loading w p u fs0)).
    set (f' := files (wait_nothing_loading (spinner_gone w) p u fs0)).
    destruct (size_and_capture_steady w p sw f f') as [_ Hev]. rewrite Hev.
    pose proof (size_and_capture_starts w p sw f') as Hs.
    revert Hs. generalize (events (size_and_capture w p sw f')). intros l Hs.
    generalize (events (navigate w u sw sel fs)). intros nav.
    assert (exists tail,
              match res (render w p u sw sel fs) with
              | Ok _ => []
              | Raise e =>
                  events (screenshot_except (spinner_gone w) p u (Some tt) e
                            (files (render (spinner_gone w) p u sw sel fs)))
              end = tail
              /\ match res (render w p u sw sel fs) with
                 | Ok _ => []
                 | Raise e =>
                     events (screenshot_except w p u (Some tt) e
                               (files (render w p u sw sel fs)))
                 end = tail) as (tail & -> & ->).
    { destruct (res (render w p u sw sel fs)) as [|e]; [exists []; split; reflexivity|].
      eexists. split; [reflexivity|]. rewrite !screenshot_except_events. reflexivity. }
    exists (Enter_screenshot_asset p u sw sel :: GetDriver :: nav), (l ++ tail ++ [Quit]).
    generalize (timeout_report w p). intros report.
    split; [|split].
    + cbn [app]. rewrite <- ?app_assoc. cbn [app]. rewrite <- ?app_assoc. reflexivity.
    + cbn [app]. rewrite <- ?app_assoc. cbn [app]. rewrite <- ?app_assoc. reflexivity.
    + destruct l; [discriminate | exact Hs].
Qed.

Lemma C6_witness :
  res (_screenshot_asset (stuck_spinner (page [viz_of_height (400 # 1)] 300)) "/tmp/3f2a.png"
         "https://app.example/exporter?token=tok&legend" W800 ExportedInsight ∅)
  = Ok tt.
Proof.
  destruct (C6_spinner_timeout_absorbed
              (stuck_spinner (page [viz_of_height (400 # 1)] 300)) "/tmp/3f2a.png"
              "https://app.example/exporter?token=tok&legend" W800 ExportedInsight ∅ ""
              eq_refl) as [H _].
  rewrite H. vm_compute. reflexivity.
Defined.

(** ** C8: measuring and resizing *)

Lemma q_max_greater x y : greater_of x y (q_max x y).
Proof.
  unfold greater_of, q_max. destruct (Qle_bool x y) eqn:E.
  - apply Qle_bool_iff in E. repeat split; [exact E | apply Qle_refl | right; reflexivity].
  - assert (~ (x <= y)%Q) as H by (rewrite <- Qle_bool_iff, E; discriminate).
    repeat split; [apply Qle_refl | apply Qlt_le_weak, Qnot_le_lt, H | left; reflexivity].
Qed.

Lemma matches_class c el : matches (ByClass c) el = has_class c el.
Proof. reflexivity. Qed.

Lemma measure_height_rule d :
  exists q, run_script MEASURE_HEIGHT d = JsNumber q /\ spec_measured_height d q.
Proof.
  unfold run_script, js_or, querySelector.
  destruct (find (matches (ByClass "InsightCard__viz")) (nodes d)) as [el|] eqn:E1.
  - apply find_some in E1 as [Hin Hm]. rewrite matches_class in Hm.
    eexists; split; [reflexivity|]. left. exists el. repeat split; try exact Hin.
    + unfold is_viz_container. rewrite Hm. reflexivity.
    + apply q_max_greater.
    + apply q_max_greater.
    + apply q_max_greater.
  - destruct (find (matches (ByClass "ExportedInsight__content")) (nodes d)) as [el|] eqn:E2.
    + apply find_some in E2 as [Hin Hm]. rewrite matches_class in Hm.
      eexists; split; [reflexivity|]. left. exists el. repeat split; try exact Hin.
      * unfold is_viz_container. rewrite Hm. apply orb_true_r.
      * apply q_max_greater.
      * apply q_max_greater.
      * apply q_max_greater.
    + eexists; split; [reflexivity|]. right. split; [|reflexivity].
      intros el Hin. unfold is_viz_container.
      rewrite <- !matches_class.
      rewrite (find_none _ _ E1 el Hin), (find_none _ _ E2 el Hin). reflexivity.
Qed.

Lemma js_number_to_python q : is_number (js_to_python (JsNumber q)) q.
Proof.
  unfold js_to_python, is_number, is_integral.
  destruct (Z.eqb_spec (Qnum q mod Z.pos (Qden q)) 0) as [E|E]; cbn [py_num].
  - destruct q as [n d]. cbn [Qnum Qden] in *. unfold Qeq. cbn.
    rewrite Z.mul_1_r.
    pose proof (Z.div_mod n (Z.pos d)) as H. lia.
  - apply Qeq_refl.
Qed.

Lemma py_add_int_number v q k :
  is_number v q ->
  exists v', py_add_int v k = Ok v' /\ is_number v' (q + inject_Z k).
Proof.
  unfold is_number. destruct v as [|z|x]; cbn [py_num py_add_int]; intros H.
  - destruct H.
  - eexists; split; [reflexivity|]. cbn [py_num]. rewrite inject_Z_plus, H. apply Qeq_refl.
  - eexists; split; [reflexivity|]. cbn [py_num]. rewrite H. apply Qeq_refl.
Qed.

Lemma measure_plus_offset d :
  exists h, py_add_int (js_to_python (run_script MEASURE_HEIGHT d)) HEIGHT_OFFSET = Ok h
            /\ measured_plus_offset d h.
Proof.
  destruct (measure_height_rule d) as [q [Hq Hs]]. rewrite Hq.
  destruct (py_add_int_number _ q HEIGHT_OFFSET (js_number_to_python q)) as [h [Hh Hn]].
  exists h. split; [exact Hh|]. exists q. split; [exact Hs | exact Hn].
Qed.

(** C8: when the browser answers the calls of the sizing engine, these are
    the calls, in this order: measure the height, ask for the table width,
    resize, run the 500 settle script, measure the height again, resize to
    the same width, capture.  Each measure is the greater of the height of
    the visualization container and the scroll height of the document when
    the page has such a container, and the scroll height alone when it has
    none; each resize uses the measure just taken plus 85. *)
Theorem C8_two_pass_sizing w p sw fs d1 dT dS d2 :
  on_execute_script w L169 = Ok d1 ->
  on_execute_script w L179 = Ok dT ->
  on_set_window_size w L193 = Ok tt ->
  on_execute_script w L196 = Ok dS ->
  on_execute_script w L199 = Ok d2 ->
  on_set_window_size w L209 = Ok tt ->
  HEIGHT_OFFSET = 85
  /\ exists h1 h2 width,
       events (size_and_capture w p sw fs) =
       [ExecuteScript MEASURE_HEIGHT; ExecuteScript TABLE_WIDTH; SetWindowSize width h1;
        ExecuteScript (SETTLE 500);
        ExecuteScript MEASURE_HEIGHT; SetWindowSize width h2;
        SaveScreenshot p]
       /\ measured_plus_offset d1 h1
       /\ measured_plus_offset d2 h2.
Proof.
  intros H1 H2 H3 H4 H5 H6. split; [reflexivity|].
  destruct (measure_plus_offset d1) as [h1 [E1 M1]].
  destruct (measure_plus_offset d2) as [h2 [E2 M2]].
  exists h1, h2, (resolve_width sw (js_to_python (run_script TABLE_WIDTH dT))).
  split; [|split; assumption].
  unfold size_and_capture.
  do 12 run_step. reflexivity.
Qed.

Lemma C8_witness :
  exists h1 h2 width,
    events (size_and_capture (calm (page [viz_of_height (400 # 1)] 300)) "/tmp/3f2a.png" W800 ∅) =
    [ExecuteScript MEASURE_HEIGHT; ExecuteScript TABLE_WIDTH; SetWindowSize width h1;
     ExecuteScript (SETTLE 500);
     ExecuteScript MEASURE_HEIGHT; SetWindowSize width h2;
     SaveScreenshot "/tmp/3f2a.png"]
    /\ measured_plus_offset (page [viz_of_height (400 # 1)] 300) h1
    /\ measured_plus_offset (page [viz_of_height (400 # 1)] 300) h2.
Proof.
  exact (proj2 (C8_two_pass_sizing (calm (page [viz_of_height (400 # 1)] 300)) "/tmp/3f2a.png"
                  W800 ∅ _ _ _ _ eq_refl eq_refl eq_refl eq_refl eq_refl eq_refl)).
Defined.

(** ** C5: the provisional width *)

Lemma Qle_bool_inject a b : Qle_bool (inject_Z a) (inject_Z b) = (a <=? b).
Proof. unfold Qle_bool. cbn. rewrite !Z.mul_1_r. reflexivity. Qed.

Lemma q_max_inject a b : q_max (inject_Z a) (inject_Z b) = inject_Z (Z.max a b).
Proof.
  unfold q_max. rewrite Qle_bool_inject.
  destruct (Z.leb_spec a b); [rewrite Z.max_r | rewrite Z.max_l]; try reflexivity; lia.
Qed.

Lemma q_min_inject a b : q_min (inject_Z a) (inject_Z b) = inject_Z (Z.min a b).
Proof.
  unfold q_min. rewrite Qle_bool_inject.
  destruct (Z.leb_spec a b); [rewrite Z.min_l | rewrite Z.min_r]; try reflexivity; lia.
Qed.

Lemma resolve_width_int sw z :
  inject_Z (resolve_width sw (PyInt z)) = spec_provisional_width (int sw) (PyInt z).
Proof.
  unfold resolve_width, spec_provisional_width. cbn [py_num].
  change (q_is_zero (inject_Z z)) with (z =? 0).
  destruct (z =? 0); rewrite q_min_inject, q_max_inject; reflexivity.
Qed.

Lemma table_width_hint d :
  js_to_python (run_script TABLE_WIDTH d) =
  match querySelector (ByTag "table") d with
  | None => PyNone
  | Some t =>
      if Z.even (offsetWidth t)
      then PyInt (3 * (offsetWidth t / 2))
      else PyFloat (inject_Z (offsetWidth t) * (3 # 2))
  end.
Proof.
  unfold run_script. destruct (querySelector (ByTag "table") d) as [t|]; [|reflexivity].
  unfold js_to_python, is_integral. cbn [Qnum Qden Qmult inject_Z].
  change (Z.pos (1 * 2)) with 2.
  destruct (Z.even (offsetWidth t)) eqn:E.
  - apply Z.even_spec in E as [k Hk]. rewrite Hk.
    replace (2 * k * 3) with (3 * k * 2) by lia.
    rewrite Z.mod_mul, Z.div_mul by lia. cbn [Z.eqb].
    replace (2 * k) with (k * 2) by lia. rewrite Z.div_mul by lia. reflexivity.
  - assert (Z.odd (offsetWidth t) = true) as O by (rewrite <- Z.negb_even, E; reflexivity).
    apply Z.odd_spec in O as [k Hk].
    destruct (Z.eqb_spec ((offsetWidth t * 3) mod 2) 0) as [H|H]; [|reflexivity].
    exfalso. rewrite Hk in H.
    replace ((2 * k + 1) * 3) with (1 + (3 * k + 1) * 2) in H by lia.
    rewrite Z.mod_add in H by lia. discriminate.
Qed.

(** C5: the rule of the specification honours every hint that is a number;
    the code misses the hints with a fractional part.  For an insight
    whose table is 1301 wide the hint is 1951.5, the rule gives 1800, and
    the code leaves the viewport at 800 in all three resizes. *)
Lemma C5_fractional_hint_ignored :
  let d := page [table_of_width 1301] 900 in
  let hint := js_to_python (run_script TABLE_WIDTH d) in
  hint = PyFloat (3903 # 2)
  /\ spec_provisional_width 800 hint = inject_Z 1800
  /\ inject_Z (resolve_width W800 hint) <> spec_provisional_width 800 hint
  /\ window_widths
       (events (_screenshot_asset (calm d) "/tmp/3f2a.png"
                  "https://app.example/exporter?token=tok&legend" W800 ExportedInsight ∅))
     = [800; 800; 800].
Proof. cbn zeta. repeat split; vm_compute; try reflexivity; discriminate. Qed.

(** What the code does with the hint: the provisional resize sets the
    viewport width to max(requested_width, min(1800, width_hint or
    requested_width)) whenever the hint arrives as an integer, which it
    does exactly when the page has a table of even width (the hint being
    1.5 times that width); any other hint - none because the page has no
    table, or a number with a fractional part because the table has an odd
    width - falls back to the requested width. *)
Theorem provisional_width_rule w p sw fs d1 dT :
  on_execute_script w L169 = Ok d1 ->
  on_execute_script w L179 = Ok dT ->
  let hint := js_to_python (run_script TABLE_WIDTH dT) in
  (exists h rest,
     events (size_and_capture w p sw fs) =
     ExecuteScript MEASURE_HEIGHT :: ExecuteScript TABLE_WIDTH
     :: SetWindowSize (resolve_width sw hint) h :: rest)
  /\ (forall z, hint = PyInt z ->
        inject_Z (resolve_width sw hint) = spec_provisional_width (int sw) hint)
  /\ ((forall z, hint <> PyInt z) -> resolve_width sw hint = int sw)
  /\ hint = match querySelector (ByTag "table") dT with
            | None => PyNone
            | Some t =>
                if Z.even (offsetWidth t)
                then PyInt (3 * (offsetWidth t / 2))
                else PyFloat (inject_Z (offsetWidth t) * (3 # 2))
            end.
Proof.
  intros H1 H2 hint. repeat split.
  - destruct (measure_plus_offset d1) as [h [E _]].
    exists h. unfold size_and_capture. do 4 run_step.
    destruct (on_set_window_size w L193); eexists; reflexivity.
  - intros z Hz. rewrite Hz. apply resolve_width_int.
  - intros Hn. destruct hint as [|z|q]; try reflexivity. destruct (Hn z eq_refl).
  - apply table_width_hint.
Qed.

Lemma provisional_width_rule_witness :
  inject_Z (resolve_width W1920
              (js_to_python (run_script TABLE_WIDTH (page [table_of_width 1300] 900))))
  = spec_provisional_width 1920
      (js_to_python (run_script TABLE_WIDTH (page [table_of_width 1300] 900))).
Proof.
  destruct (provisional_width_rule (calm (page [table_of_width 1300] 900)) "/tmp/3f2a.png"
              W1920 ∅ (page [table_of_width 1300] 900) (page [table_of_width 1300] 900)
              eq_refl eq_refl) as [_ [H _]].
  exact (H 1950 eq_refl).
Defined.

(** ** C3 and C4: errors before the browser *)

Lemma no_browser_nil : no_browser [].
Proof. split; reflexivity. Qed.

Lemma no_browser_app a b : no_browser a -> no_browser b -> no_browser (a ++ b).
Proof. unfold no_browser. rewrite !count_app. lia. Qed.

Lemma fails_raise {A} e : fails (@raise A e).
Proof. intros fs. exists e. reflexivity. Qed.

Lemma fails_bind_left {A B} (m : M A) (k : A -> M B) : fails m -> fails (bind m k).
Proof. intros H fs. destruct (H fs) as [e He]. exists e. rewrite res_bind, He. reflexivity. Qed.

Lemma fails_bind_right {A B} (m : M A) (k : A -> M B) :
  (forall a, fails (k a)) -> fails (bind m k).
Proof.
  intros H fs. rewrite res_bind. destruct (res (m fs)) as [a|e]; [apply H | exists e; reflexivity].
Qed.

Lemma render_target_neither w exported_asset access_token :
  insight exported_asset = None ->
  dashboard exported_asset = None ->
  render_target w exported_asset access_token = Raise missing_id.
Proof. intros Hi Hd. unfold render_target. rewrite Hi, Hd. reflexivity. Qed.

Lemma export_steps_neither_fails w exported_asset p :
  insight exported_asset = None ->
  dashboard exported_asset = None ->
  fails (export_steps w exported_asset p).
Proof.
  intros Hi Hd. unfold export_steps.
  do 4 (apply fails_bind_right; intros).
  apply fails_bind_left. rewrite (render_target_neither _ _ _ Hi Hd). apply fails_raise.
Qed.

Lemma export_steps_neither_no_browser w exported_asset p :
  insight exported_asset = None ->
  dashboard exported_asset = None ->
  sat no_browser (export_steps w exported_asset p).
Proof.
  intros Hi Hd fs. unfold export_steps.
  rewrite events_bind. cbn [path_exists res events files app].
  rewrite events_bind.
  assert (no_browser
            (events ((if negb (bool_decide (TMP_DIR ∈ fs))
                      then emit (Makedirs TMP_DIR);; lift (on_makedirs w);; write_file TMP_DIR
                      else ret ()) fs))) as Hmk.
  { assert (sat no_browser
              (emit (Makedirs TMP_DIR);; lift (on_makedirs w);; write_file TMP_DIR)) as H
      by (sat_walk no_browser_nil no_browser_app; split; reflexivity).
    destruct (negb _); [apply H | apply no_browser_nil]. }
  destruct (res _); [|exact Hmk].
  apply no_browser_app; [exact Hmk|].
  rewrite events_bind. cbn [emit res events files].
  rewrite events_bind, lift_run. cbn [res events files].
  destruct (on_get_public_access_token w) as [tok|e]; [|split; reflexivity].
  rewrite events_bind, (render_target_neither _ _ _ Hi Hd). split; reflexivity.
Qed.

Lemma export_except_res w l e fs : res (export_except w l e fs) = Raise e.
Proof.
  unfold export_except. rewrite res_bind.
  assert (res ((match l with
                | Some p =>
                    if truthy p
                    then there <- path_exists p;; (if there then os_remove p else ret ())
                    else ret ()
                | None => ret ()
                end) fs) = Ok tt) as ->.
  { destruct l as [p|]; [|reflexivity]. destruct (truthy p); [|reflexivity].
    rewrite res_bind. cbn [path_exists res files].
    destruct (decide (p ∈ fs)) as [Hin|Hin].
    - rewrite bool_decide_eq_true_2 by exact Hin. unfold os_remove.
      rewrite bool_decide_eq_true_2 by exact Hin. reflexivity.
    - rewrite bool_decide_eq_false_2 by exact Hin. reflexivity. }
  reflexivity.
Qed.

Lemma export_except_no_browser w l e : sat no_browser (export_except w l e).
Proof.
  unfold export_except.
  sat_walk no_browser_nil no_browser_app; split; reflexivity.
Qed.

(** The outcome of [_export_to_png] is that of its [try] block. *)
Lemma export_to_png_res w exported_asset fs :
  res (_export_to_png w exported_asset fs) = res (snd (export_try w exported_asset fs)).
Proof.
  unfold _export_to_png. rewrite res_bind. cbn [emit res files].
  unfold try_except_finally.
  destruct (export_try w exported_asset fs) as [l r]; cbn [snd].
  destruct (res r) as [a|e] eqn:E; cbn [ret res after files].
  - exact E.
  - apply export_except_res.
Qed.

Lemma makedirs_ok w fs :
  TMP_DIR ∈ fs \/ on_makedirs w = Ok tt ->
  res ((if negb (bool_decide (TMP_DIR ∈ fs))
        then emit (Makedirs TMP_DIR);; lift (on_makedirs w);; write_file TMP_DIR
        else ret tt) fs) = Ok tt.
Proof.
  intros H. destruct (decide (TMP_DIR ∈ fs)) as [Hin|Hin].
  - rewrite bool_decide_eq_true_2 by exact Hin. reflexivity.
  - rewrite bool_decide_eq_false_2 by exact Hin. destruct H as [H|H]; [contradiction|].
    cbn [negb]. rewrite !res_bind. cbn [emit res files]. rewrite lift_run, H. reflexivity.
Qed.

Lemma export_to_png_no_browser_neither w exported_asset :
  insight exported_asset = None ->
  dashboard exported_asset = None ->
  sat no_browser (_export_to_png w exported_asset).
Proof.
  intros Hi Hd. unfold _export_to_png.
  apply (sat_bind _ no_browser_app); [apply sat_emit; split; reflexivity | intros _].
  apply (sat_try_except_finally _ no_browser_app).
  - intros fs. unfold export_try.
    destruct (negb (truthy (SITE_URL w))); cbn [leaving snd].
    + apply no_browser_nil.
    + apply (export_steps_neither_no_browser _ _ _ Hi Hd).
  - intros l e. apply export_except_no_browser.
  - intros l. apply (sat_ret _ no_browser_nil).
Qed.

(** C4, as the specification states it, fails when something goes wrong
    before the branch is reached: with no site URL configured,
    [_export_to_png] raises at its first check, without getting to the
    choice between insight and dashboard. *)
Lemma C4_site_url_checked_first :
  let r := _export_to_png (no_site_url (page [] 0)) (asset_of None None "image/png") ∅ in
  res r = Raise (Exc Exception
            "The SITE_URL is not set. The exporter must have HTTP access to the web app in order to work")
  /\ res r <> Raise missing_id
  /\ events r = [Enter_export_to_png 7; LogErrorIfSiteUrlNotReachable].
Proof. cbn zeta. repeat split; vm_compute; try reflexivity; discriminate. Qed.

(** C4, amended: for an asset with neither an insight nor a dashboard,
    [_export_to_png] always raises, without calling [_screenshot_asset]
    and without any call on a browser; when the site URL is set, the
    temporary directory is there or can be made, and the access token is
    issued, the error is the one of the branch selection, "Export is
    missing required dashboard or insight ID". *)
Theorem C4_neither_insight_nor_dashboard w exported_asset fs :
  insight exported_asset = None ->
  dashboard exported_asset = None ->
  let r := _export_to_png w exported_asset fs in
  (exists e, res r = Raise e)
  /\ no_browser (events r)
  /\ (truthy (SITE_URL w) = true ->
      TMP_DIR ∈ fs \/ on_makedirs w = Ok tt ->
      (exists access_token, on_get_public_access_token w = Ok access_token) ->
      res r = Raise missing_id).
Proof.
  intros Hi Hd r. subst r. rewrite export_to_png_res. split; [|split].
  - unfold export_try. destruct (negb (truthy (SITE_URL w))); cbn [leaving snd].
    + eexists; reflexivity.
    + apply (export_steps_neither_fails _ _ _ Hi Hd).
  - apply (export_to_png_no_browser_neither _ _ Hi Hd).
  - intros Hs Hm [tok Ht]. unfold export_try. rewrite Hs. cbn [negb leaving snd].
    unfold export_steps. rewrite res_bind. cbn [path_exists res files].
    rewrite res_bind, (makedirs_ok _ _ Hm).
    rewrite res_bind. cbn [emit res files].
    rewrite res_bind, lift_run, Ht. cbn [res files].
    rewrite res_bind, (render_target_neither _ _ _ Hi Hd). reflexivity.
Qed.

Lemma C4_witness :
  res (_export_to_png (calm (page [] 0)) (asset_of None None "image/png") ∅) = Raise missing_id.
Proof.
  destruct (C4_neither_insight_nor_dashboard (calm (page [] 0))
              (asset_of None None "image/png") ∅ eq_refl eq_refl) as [_ [_ H]].
  apply H; [reflexivity | right; reflexivity | exists "tok"; reflexivity].
Defined.

(** C3, as the specification states it, fails when the asset has an insight
    whose recomputation fails: that happens before the format is looked at,
    and its error is the one [export_image] raises. *)
Lemma C3_query_runs_before_format_check :
  let r := export_image (failing_query (page [] 0))
             (asset_of (Some an_insight) None "application/pdf") ∅ in
  res r = Raise (Exc Exception "query timed out")
  /\ res r <> Raise (unsupported_format "application/pdf").
Proof. cbn zeta. split; vm_compute; [reflexivity | discriminate]. Qed.

Lemma export_image_try_gate w exported_asset fs :
  String.eqb (export_format exported_asset) "image/png" = false ->
  res (export_image_try w exported_asset fs)
  = match insight exported_asset, on_process_query_dict w with
    | Some _, Raise e => Raise e
    | _, _ => Raise (unsupported_format (export_format exported_asset))
    end
  /\ events (export_image_try w exported_asset fs)
     = match insight exported_asset with
       | Some i => [ProcessQueryDict (insight_id i)
                      (option_map dashboard_id (dashboard exported_asset))]
       | None => []
       end.
Proof.
  intros Hf. unfold export_image_try. rewrite Hf, res_bind, events_bind.
  destruct (insight exported_asset) as [i|].
  - rewrite res_bind, events_bind. cbn [emit res events files]. rewrite lift_run.
    cbn [res events files]. destruct (on_process_query_dict w); split; reflexivity.
  - split; reflexivity.
Qed.

Lemma export_image_events w exported_asset fs e :
  res (export_image_try w exported_asset fs) = Raise e ->
  res (export_image w exported_asset fs) = Raise e
  /\ events (export_image w exported_asset fs)
     = [SetTag "team_id"; SetTag "asset_id"]
       ++ events (export_image_try w exported_asset fs)
       ++ [SetTag "celery_task"; SetTag "team_id"; CaptureException (Some e);
           Log "image_exporter.failed"; Counter "EXPORT_FAILED_COUNTER"].
Proof.
  intros H. unfold export_image.
  rewrite ?res_bind, ?events_bind. cbn [emit res events files app].
  rewrite ?res_bind, ?events_bind. cbn [emit res events files app].
  unfold try_except. rewrite H. cbn [any_Exception res events]. split; reflexivity.
Qed.

(** C3, amended: for an asset whose format is not "image/png",
    [export_image] always raises, never enters [_export_to_png] and makes
    no call on a browser; the error is the unsupported-format error unless
    the asset has an insight and recomputing it raised, in which case that
    error is the one raised. *)
Theorem C3_format_gate w exported_asset fs :
  export_format exported_asset <> "image/png" ->
  let r := export_image w exported_asset fs in
  (exists e, res r = Raise e)
  /\ no_browser (events r)
  /\ count is_Enter_export_to_png (events r) = 0%nat
  /\ (insight exported_asset = None \/ on_process_query_dict w = Ok tt ->
      res r = Raise (unsupported_format (export_format exported_asset)))
  /\ (forall e, insight exported_asset <> None -> on_process_query_dict w = Raise e ->
      res r = Raise e).
Proof.
  intros Hf r. subst r.
  apply String.eqb_neq in Hf.
  destruct (export_image_try_gate w exported_asset fs Hf) as [Hr He].
  assert (exists e, res (export_image_try w exported_asset fs) = Raise e) as [e0 H0].
  { rewrite Hr. destruct (insight exported_asset), (on_process_query_dict w); eexists; reflexivity. }
  destruct (export_image_events w exported_asset fs e0 H0) as [Hres Hev].
  rewrite Hres, Hev, He. rewrite H0 in Hr.
  split; [eexists; reflexivity|].
  split; [|split; [|split]].
  - destruct (insight exported_asset); split; reflexivity.
  - destruct (insight exported_asset); reflexivity.
  - intros [H|H]; rewrite H in Hr; [exact Hr|].
    destruct (insight exported_asset); exact Hr.
  - intros e Hi Hq. rewrite Hq in Hr. destruct (insight exported_asset); [exact Hr | congruence].
Qed.

Lemma C3_witness :
  res (export_image (calm (page [] 0)) (asset_of None (Some a_dashboard) "application/pdf") ∅)
  = Raise (unsupported_format "application/pdf").
Proof.
  destruct (C3_format_gate (calm (page [] 0))
              (asset_of None (Some a_dashboard) "application/pdf") ∅) as [_ [_ [_ [H _]]]].
  - discriminate.
  - apply H. left. reflexivity.
Defined.

(** ** C9 and C10: what is rendered *)

Lemma no_enter_nil : no_enter [].
Proof. reflexivity. Qed.

Lemma no_enter_app a b : no_enter a -> no_enter b -> no_enter (a ++ b).
Proof. unfold no_enter. rewrite count_app. lia. Qed.

Lemma read_and_store_no_enter w exported_asset p :
  sat no_enter (read_and_store w exported_asset p).
Proof. unfold read_and_store. sat_walk no_enter_nil no_enter_app; reflexivity. Qed.

Lemma export_except_no_enter w l e : sat no_enter (export_except w l e).
Proof. unfold export_except. sat_walk no_enter_nil no_enter_app; reflexivity. Qed.

Lemma render_no_enter w p u sw sel : sat no_enter (render w p u sw sel).
Proof.
  unfold render, navigate, wait_nothing_loading, size_and_capture. unfold_driver.
  sat_walk no_enter_nil no_enter_app; reflexivity.
Qed.

Lemma screenshot_except_no_enter w p u driver e : sat no_enter (screenshot_except w p u driver e).
Proof.
  unfold screenshot_except. unfold_driver. sat_walk no_enter_nil no_enter_app; reflexivity.
Qed.

(** A run of [_screenshot_asset] starts by entering it, once. *)
Lemma screenshot_asset_enters w p u sw sel fs :
  exists rest,
    events (_screenshot_asset w p u sw sel fs) = Enter_screenshot_asset p u sw sel :: rest
    /\ no_enter rest.
Proof.
  rewrite screenshot_asset_events. eexists; split; [reflexivity|].
  change (?a :: ?l) with ([a] ++ l). apply no_enter_app; [reflexivity|].
  destruct (on_get_driver w) as [d|e0]; [|apply screenshot_except_no_enter].
  apply no_enter_app; [apply render_no_enter|].
  apply no_enter_app; [|reflexivity].
  destruct (res (render w p u sw sel fs)); [reflexivity | apply screenshot_except_no_enter].
Qed.

Lemma makedirs_no_enter w fs :
  no_enter (events ((if negb (bool_decide (TMP_DIR ∈ fs))
                     then emit (Makedirs TMP_DIR);; lift (on_makedirs w);; write_file TMP_DIR
                     else ret tt) fs)).
Proof.
  assert (sat no_enter (emit (Makedirs TMP_DIR);; lift (on_makedirs w);; write_file TMP_DIR)) as H
    by (sat_walk no_enter_nil no_enter_app; reflexivity).
  destruct (negb _); [apply H | reflexivity].
Qed.

Lemma export_steps_calls w exported_asset p fs access_token url sel sw :
  TMP_DIR ∈ fs \/ on_makedirs w = Ok tt ->
  on_get_public_access_token w = Ok access_token ->
  render_target w exported_asset access_token = Ok (url, sel, sw) ->
  exists a b,
    events (export_steps w exported_asset p fs) = a ++ Enter_screenshot_asset p url sw sel :: b
    /\ no_enter a /\ no_enter b.
Proof.
  intros Hm Ht Hr.
  unfold export_steps. rewrite events_bind. cbn [path_exists res events files app].
  rewrite events_bind, (makedirs_ok _ _ Hm).
  rewrite events_bind. cbn [emit res events files].
  rewrite events_bind, lift_run, Ht. cbn [res events files app].
  rewrite events_bind, Hr. cbn [lift ret res events files app].
  rewrite events_bind. cbn [emit res events files].
  rewrite events_bind.
  match goal with
  | |- context [events (_screenshot_asset w p url sw sel ?f)] =>
      destruct (screenshot_asset_enters w p url sw sel f) as (rest & -> & Hrest)
  end.
  pose proof (makedirs_no_enter w fs) as Hmk. revert Hmk.
  generalize (events ((if negb (bool_decide (TMP_DIR ∈ fs))
                       then emit (Makedirs TMP_DIR);; lift (on_makedirs w);;
                            write_file TMP_DIR
                       else ret tt) fs)). intros mk Hmk.
  exists (mk ++ [GetPublicAccessToken (asset_id exported_asset) 15; Log "exporting_asset"]).
  destruct (res _).
  - eexists. split; [|split].
    + cbn [app]. rewrite <- app_assoc. reflexivity.
    + apply no_enter_app; [exact Hmk | reflexivity].
    + apply no_enter_app; [exact Hrest | apply read_and_store_no_enter].
  - exists rest. split; [|split].
    + cbn [app]. rewrite <- app_assoc. reflexivity.
    + apply no_enter_app; [exact Hmk | reflexivity].
    + exact Hrest.
Qed.

(** Once the preliminaries are through, [_export_to_png] calls
    [_screenshot_asset] once, on the target of the branch selection. *)
Lemma export_to_png_calls w exported_asset fs access_token url sel sw :
  truthy (SITE_URL w) = true ->
  TMP_DIR ∈ fs \/ on_makedirs w = Ok tt ->
  on_get_public_access_token w = Ok access_token ->
  render_target w exported_asset access_token = Ok (url, sel, sw) ->
  let evs := events (_export_to_png w exported_asset fs) in
  count is_Enter_screenshot_asset evs = 1%nat
  /\ In (Enter_screenshot_asset (image_path_of w) url sw sel) evs.
Proof.
  intros Hs Hm Ht Hr evs. subst evs.
  unfold _export_to_png. rewrite events_bind. cbn [emit res events files].
  rewrite try_except_finally_events. unfold export_try. rewrite Hs.
  cbn [negb leaving fst snd ret events].
  set (p := image_path_of w).
  destruct (export_steps_calls w exported_asset p fs _ _ _ _ Hm Ht Hr)
    as (a & b & E & Ha & Hb).
  revert E. generalize (export_steps w exported_asset p fs). intros r E.
  assert (exists c, events (match res r with
                            | Ok _ => r
                            | Raise e => after r (export_except w (Some p) e (files r))
                            end) = events r ++ c /\ no_enter c) as (c & -> & Hc).
  { destruct (res r) as [|e].
    - exists []. rewrite app_nil_r. split; reflexivity.
    - eexists. split; [reflexivity | apply export_except_no_enter]. }
  rewrite E, app_nil_r. split.
  - change (?x :: ?l) with ([x] ++ l).
    rewrite !count_app, Ha. change (?x :: ?l) with ([x] ++ l). rewrite count_app, Hb, Hc.
    reflexivity.
  - cbn [app In]. rewrite !in_app_iff. cbn [In]. right. left. right. left. reflexivity.
Qed.

Lemma navigate_events w u sw sel fs :
  on_set_window_size w L146 = Ok tt ->
  on_get w = Ok tt ->
  events (navigate w u sw sel fs)
  = [SetWindowSize (int sw) (PyInt 600); DriverGet u; WaitUntil 20 (css sel)].
Proof. intros H1 H2. unfold navigate. do 3 run_step. reflexivity. Qed.

(** C9: the render target depends on the kind of the export only.  For an
    insight the page is the exporter URL with the token and the legend
    flag, the marker is .ExportedInsight and the width is 800; for a
    dashboard (no insight) the page is the exporter URL with the token
    alone, the marker is .InsightCard and the width is 1920.  Once the
    site URL is known, the temporary directory is there and the token is
    issued, [_screenshot_asset] is called once, with exactly this target;
    it opens the browser window at that width, loads that page and waits
    for that marker. *)
Theorem C9_render_target_by_kind w exported_asset access_token :
  let target :=
    match insight exported_asset, dashboard exported_asset with
    | Some _, _ => Some (insight_url w access_token, ExportedInsight, W800)
    | None, Some _ => Some (dashboard_url w access_token, InsightCard, W1920)
    | None, None => None
    end in
  match target with
  | Some (url, sel, sw) =>
      render_target w exported_asset access_token = Ok (url, sel, sw)
      /\ (forall fs,
            truthy (SITE_URL w) = true ->
            TMP_DIR ∈ fs \/ on_makedirs w = Ok tt ->
            on_get_public_access_token w = Ok access_token ->
            let evs := events (_export_to_png w exported_asset fs) in
            count is_Enter_screenshot_asset evs = 1%nat
            /\ In (Enter_screenshot_asset (image_path_of w) url sw sel) evs)
      /\ (forall fs,
            on_set_window_size w L146 = Ok tt ->
            on_get w = Ok tt ->
            events (navigate w url sw sel fs)
            = [SetWindowSize (int sw) (PyInt 600); DriverGet url; WaitUntil 20 (css sel)])
  | None => True
  end
  /\ insight_url w access_token
     = absolute_uri w ("/exporter?token=" +:+ access_token +:+ "&legend")
  /\ dashboard_url w access_token = absolute_uri w ("/exporter?token=" +:+ access_token)
  /\ css ExportedInsight = ".ExportedInsight" /\ int W800 = 800
  /\ css InsightCard = ".InsightCard" /\ int W1920 = 1920.
Proof.
  intros target. subst target.
  split; [|repeat split].
  destruct (insight exported_asset) as [i|] eqn:Hi;
    [|destruct (dashboard exported_asset) as [d|] eqn:Hd; [|exact I]].
  - assert (render_target w exported_asset access_token
            = Ok (insight_url w access_token, ExportedInsight, W800)) as Hr
      by (unfold render_target; rewrite Hi; reflexivity).
    split; [exact Hr|]. split.
    + intros fs Hs Hm Ht. apply (export_to_png_calls w exported_asset fs _ _ _ _ Hs Hm Ht Hr).
    + intros. apply navigate_events; assumption.
  - assert (render_target w exported_asset access_token
            = Ok (dashboard_url w access_token, InsightCard, W1920)) as Hr
      by (unfold render_target; rewrite Hi, Hd; reflexivity).
    split; [exact Hr|]. split.
    + intros fs Hs Hm Ht. apply (export_to_png_calls w exported_asset fs _ _ _ _ Hs Hm Ht Hr).
    + intros. apply navigate_events; assumption.
Qed.

Lemma C9_witness :
  In (Enter_screenshot_asset "/tmp/3f2a.png" "https://app.example/exporter?token=tok"
        W1920 InsightCard)
     (events (_export_to_png (calm (page [] 0)) (asset_of None (Some a_dashboard) "image/png") ∅)).
Proof.
  destruct (C9_render_target_by_kind (calm (page [] 0))
              (asset_of None (Some a_dashboard) "image/png") "tok") as [H _].
  cbn in H. destruct H as [_ [H _]].
  destruct (H ∅ eq_refl (or_intror eq_refl) eq_refl) as [_ Hin]. exact Hin.
Defined.

(** C10: for an asset with both an insight and a dashboard, the branch
    selection raises nothing and gives the target of an insight: the
    exporter URL with the legend flag, the marker .ExportedInsight and the
    width 800; once the preliminaries are through, [_screenshot_asset] is
    called once, with this target. *)
Theorem C10_insight_takes_precedence w exported_asset fs access_token i d :
  insight exported_asset = Some i ->
  dashboard exported_asset = Some d ->
  render_target w exported_asset access_token
  = Ok (absolute_uri w ("/exporter?token=" +:+ access_token +:+ "&legend"),
        ExportedInsight, W800)
  /\ css ExportedInsight = ".ExportedInsight" /\ int W800 = 800
  /\ (truthy (SITE_URL w) = true ->
      TMP_DIR ∈ fs \/ on_makedirs w = Ok tt ->
      on_get_public_access_token w = Ok access_token ->
      let evs := events (_export_to_png w exported_asset fs) in
      count is_Enter_screenshot_asset evs = 1%nat
      /\ In (Enter_screenshot_asset (image_path_of w)
               (absolute_uri w ("/exporter?token=" +:+ access_token +:+ "&legend"))
               W800 ExportedInsight) evs
      /\ res (_export_to_png w exported_asset fs)
         = res (_export_to_png w
                  {| asset_id := asset_id exported_asset;
                     team_id := team_id exported_asset;
                     insight := Some i;
                     dashboard := None;
                     export_format := export_format exported_asset |} fs)).
Proof.
  intros Hi Hd.
  assert (render_target w exported_asset access_token
          = Ok (absolute_uri w ("/exporter?token=" +:+ access_token +:+ "&legend"),
                ExportedInsight, W800)) as Hr
    by (unfold render_target; rewrite Hi; reflexivity).
  split; [exact Hr|]. split; [reflexivity|]. split; [reflexivity|].
  intros Hs Hm Ht evs.
  destruct (export_to_png_calls w exported_asset fs _ _ _ _ Hs Hm Ht Hr) as [Hc Hin].
  split; [exact Hc|]. split; [exact Hin|].
  rewrite !export_to_png_res. unfold export_try. rewrite Hs. cbn [negb leaving snd].
  unfold export_steps, render_target. cbn [insight asset_id]. rewrite Hi. reflexivity.
Qed.

Lemma C10_witness :
  render_target (calm (page [] 0)) (asset_of (Some an_insight) (Some a_dashboard) "image/png") "tok"
  = Ok ("https://app.example/exporter?token=tok&legend", ExportedInsight, W800).
Proof.
  destruct (C10_insight_takes_precedence (calm (page [] 0))
              (asset_of (Some an_insight) (Some a_dashboard) "image/png") ∅ "tok"
              an_insight a_dashboard eq_refl eq_refl) as [H _].
  exact H.
Defined.

(** * Further properties *)

#[local] Set Warnings "-clear-no-such-hyp".

(** ** The shape of a run of [export_image] *)

Lemma count_none (f g : Event -> bool) evs :
  Forall (fun ev => g ev = false) evs ->
  (forall ev, f ev = true -> g ev = true) ->
  count f evs = 0%nat.
Proof.
  intros H Hfg. unfold count. induction H as [|ev evs Hev _ IH]; [reflexivity|].
  cbn. destruct (f ev) eqn:E; [|exact IH].
  apply Hfg in E. congruence.
Qed.

Lemma screenshot_statement_inside w p u sw sel :
  sat (Forall (fun ev => around_export_to_png ev = false))
    (try_except_finally (screenshot_try w p u sw sel) (screenshot_except w p u)
       (screenshot_finally w)).
Proof.
  apply (sat_try_except_finally _ (Forall_app_both _)).
  - apply (sat_block_screenshot_try _ (Forall_none _) (Forall_app_both _));
      [repeat constructor|].
    unfold render, navigate, wait_nothing_loading, size_and_capture. unfold_driver.
    sat_walk (Forall_none (fun ev => around_export_to_png ev = false))
             (Forall_app_both (fun ev => around_export_to_png ev = false));
      repeat constructor.
  - intros l e. unfold screenshot_except. unfold_driver.
    sat_walk (Forall_none (fun ev => around_export_to_png ev = false))
             (Forall_app_both (fun ev => around_export_to_png ev = false));
      repeat constructor.
  - intros l. unfold screenshot_finally. unfold_driver.
    sat_walk (Forall_none (fun ev => around_export_to_png ev = false))
             (Forall_app_both (fun ev => around_export_to_png ev = false));
      repeat constructor.
Qed.

(** A run of [_export_to_png] starts by entering it; nothing that follows
    is a call [export_image] makes around it. *)
Lemma export_to_png_inside w exported_asset fs :
  exists rest,
    events (_export_to_png w exported_asset fs)
    = Enter_export_to_png (asset_id exported_asset) :: rest
    /\ Forall (fun ev => around_export_to_png ev = false) rest.
Proof.
  unfold _export_to_png. rewrite events_bind. cbn [emit res events files app].
  eexists. split; [reflexivity|].
  revert fs. apply (sat_try_except_finally _ (Forall_app_both _)).
  - intros fs. unfold export_try.
    destruct (negb (truthy (SITE_URL w))); cbn [leaving snd]; [constructor|].
    revert fs.
    change (sat (Forall (fun ev => around_export_to_png ev = false))
              (export_steps w exported_asset (image_path_of w))).
    unfold export_steps, read_and_store.
    sat_walk (Forall_none (fun ev => around_export_to_png ev = false))
             (Forall_app_both (fun ev => around_export_to_png ev = false));
      try apply screenshot_statement_inside; repeat constructor.
  - intros l e. unfold export_except.
    sat_walk (Forall_none (fun ev => around_export_to_png ev = false))
             (Forall_app_both (fun ev => around_export_to_png ev = false));
      repeat constructor.
  - intros l. apply (sat_ret _ (Forall_none _)).
Qed.

(** The [try] block of [export_image] for the supported format. *)
Lemma export_image_try_png w exported_asset fs :
  String.eqb (export_format exported_asset) "image/png" = true ->
  res (export_image_try w exported_asset fs)
  = match refresh_result w exported_asset with
    | Raise e => Raise e
    | Ok _ => res (_export_to_png w exported_asset fs)
    end
  /\ events (export_image_try w exported_asset fs)
     = refresh_events exported_asset
       ++ match refresh_result w exported_asset with
          | Raise _ => []
          | Ok _ =>
              events (_export_to_png w exported_asset fs)
              ++ Counter "EXPORT_TIMER"
              :: match res (_export_to_png w exported_asset fs) with
                 | Ok _ => [Counter "EXPORT_SUCCEEDED_COUNTER"]
                 | Raise _ => []
                 end
          end.
Proof.
  intros Hf. unfold export_image_try, refresh_result, refresh_events.
  rewrite Hf, res_bind, events_bind.
  assert (forall fs',
            res (bind (try_finally (_export_to_png w exported_asset)
                         (emit (Counter "EXPORT_TIMER")))
                      (fun _ => emit (Counter "EXPORT_SUCCEEDED_COUNTER")) fs')
            = res (_export_to_png w exported_asset fs')
            /\ events (bind (try_finally (_export_to_png w exported_asset)
                               (emit (Counter "EXPORT_TIMER")))
                            (fun _ => emit (Counter "EXPORT_SUCCEEDED_COUNTER")) fs')
               = events (_export_to_png w exported_asset fs')
                 ++ Counter "EXPORT_TIMER"
                 :: match res (_export_to_png w exported_asset fs') with
                    | Ok _ => [Counter "EXPORT_SUCCEEDED_COUNTER"]
                    | Raise _ => []
                    end) as Hpng.
  { intros fs'. rewrite res_bind, events_bind. unfold try_finally.
    generalize (_export_to_png w exported_asset fs'). intros r.
    cbn [emit res events files].
    destruct (res r) as [[]|e]; cbn [emit res events files]; split; try reflexivity.
    rewrite <- app_assoc. reflexivity. }
  destruct (insight exported_asset) as [i|].
  - rewrite res_bind, events_bind. cbn [emit res events files]. rewrite lift_run.
    cbn [res events files].
    assert (forall ev (r0 : result unit), files ((emit ev;; lift r0) fs) = fs) as Hfs
      by (intros ev r0; destruct r0; reflexivity).
    rewrite Hfs.
    destruct (on_process_query_dict w) as [[]|e]; [|split; reflexivity].
    destruct (Hpng fs) as [-> ->]. split; reflexivity.
  - cbn [ret res events files app]. apply Hpng.
Qed.

(** [export_image] ends the way its [try] block ends, after reporting a
    failure. *)
Lemma export_image_run w exported_asset fs :
  res (export_image w exported_asset fs) = res (export_image_try w exported_asset fs)
  /\ events (export_image w exported_asset fs)
     = [SetTag "team_id"; SetTag "asset_id"]
       ++ events (export_image_try w exported_asset fs)
       ++ match res (export_image_try w exported_asset fs) with
          | Ok _ => []
          | Raise e => failure_report e
          end.
Proof.
  destruct (res (export_image_try w exported_asset fs)) as [[]|e] eqn:E.
  - unfold export_image.
    rewrite ?res_bind, ?events_bind. cbn [emit res events files app].
    rewrite ?res_bind, ?events_bind. cbn [emit res events files app].
    unfold try_except. rewrite E. rewrite app_nil_r. split; [exact E | reflexivity].
  - apply (export_image_events w exported_asset fs e E).
Qed.

Lemma count_cons f ev (evs : list Event) :
  count f (ev :: evs) = ((if f ev then 1 else 0) + count f evs)%nat.
Proof. unfold count. cbn. destruct (f ev); reflexivity. Qed.

Lemma export_to_png_counts_none f w exported_asset fs :
  (forall ev, f ev = true -> around_export_to_png ev = true) ->
  (forall n, f (Enter_export_to_png n) = false) ->
  count f (events (_export_to_png w exported_asset fs)) = 0%nat.
Proof.
  intros Hf He. destruct (export_to_png_inside w exported_asset fs) as (rest & -> & Hrest).
  rewrite count_cons, He. apply (count_none f around_export_to_png); assumption.
Qed.

Lemma is_Counter_around name ev : is_Counter name ev = true -> around_export_to_png ev = true.
Proof. destruct ev; cbn; congruence. Qed.

(** ** Telemetry *)

(** X1: the counters of [export_image] tell how it ended: a run that
    returns adds one to EXPORT_SUCCEEDED_COUNTER and nothing to
    EXPORT_FAILED_COUNTER; a run that raises adds one to
    EXPORT_FAILED_COUNTER and nothing to EXPORT_SUCCEEDED_COUNTER. *)
Theorem X1_counters_tell_the_outcome w exported_asset fs :
  let r := export_image w exported_asset fs in
  let succeeded := count (is_Counter "EXPORT_SUCCEEDED_COUNTER") (events r) in
  let failed := count (is_Counter "EXPORT_FAILED_COUNTER") (events r) in
  match res r with
  | Ok _ => succeeded = 1%nat /\ failed = 0%nat
  | Raise _ => succeeded = 0%nat /\ failed = 1%nat
  end.
Proof.
  cbn zeta. destruct (export_image_run w exported_asset fs) as [-> ->].
  destruct (String.eqb (export_format exported_asset) "image/png") eqn:Hf.
  - destruct (export_image_try_png w exported_asset fs Hf) as [-> ->].
    pose proof (export_to_png_counts_none (is_Counter "EXPORT_SUCCEEDED_COUNTER")
                  w exported_asset fs (is_Counter_around _) (fun _ => eq_refl)) as Hs.
    pose proof (export_to_png_counts_none (is_Counter "EXPORT_FAILED_COUNTER")
                  w exported_asset fs (is_Counter_around _) (fun _ => eq_refl)) as Hx.
    revert Hs Hx. generalize (_export_to_png w exported_asset fs). intros r Hs Hx.
    unfold refresh_events, refresh_result.
    destruct (insight exported_asset) as [i|];
      [destruct (on_process_query_dict w) as [[]|e]|];
      try destruct (res r) as [[]|e'];
      rewrite ?count_cons, ?count_app, ?count_cons, ?count_app, ?count_cons, ?Hs, ?Hx;
      split; reflexivity.
  - destruct (export_image_try_gate w exported_asset fs Hf) as [-> ->].
    destruct (insight exported_asset) as [i|];
      [destruct (on_process_query_dict w) as [[]|e]|]; split; reflexivity.
Qed.

(** X2: the export timer is observed once for every entry into
    [_export_to_png], whether that call returns or raises, and never when
    the export stops before it (unsupported format, failed recomputation);
    [_export_to_png] is entered at most once. *)
Theorem X2_timer_counts_entries w exported_asset fs :
  let evs := events (export_image w exported_asset fs) in
  count (is_Counter "EXPORT_TIMER") evs = count is_Enter_export_to_png evs
  /\ (count is_Enter_export_to_png evs <= 1)%nat.
Proof.
  cbn zeta. destruct (export_image_run w exported_asset fs) as [_ ->].
  destruct (String.eqb (export_format exported_asset) "image/png") eqn:Hf.
  - destruct (export_image_try_png w exported_asset fs Hf) as [-> ->].
    pose proof (export_to_png_counts_none (is_Counter "EXPORT_TIMER")
                  w exported_asset fs (is_Counter_around _) (fun _ => eq_refl)) as Ht.
    destruct (export_to_png_inside w exported_asset fs) as (rest & E & Hrest).
    assert (count is_Enter_export_to_png (events (_export_to_png w exported_asset fs)) = 1%nat)
      as He.
    { rewrite E, count_cons. cbn [is_Enter_export_to_png].
      rewrite (count_none is_Enter_export_to_png around_export_to_png _ Hrest);
        [reflexivity | intros ev; destruct ev; cbn; congruence]. }
    clear E Hrest rest. revert Ht He.
    generalize (_export_to_png w exported_asset fs). intros r Ht He.
    unfold refresh_events, refresh_result.
    destruct (insight exported_asset) as [i|];
      [destruct (on_process_query_dict w) as [[]|e]|];
      try destruct (res r) as [[]|e'];
      rewrite ?count_cons, ?count_app, ?count_cons, ?count_app, ?count_cons, ?Ht, ?He;
      cbn; split; lia.
  - destruct (export_image_try_gate w exported_asset fs Hf) as [-> ->].
    destruct (insight exported_asset) as [i|];
      [destruct (on_process_query_dict w) as [[]|e]|]; cbn; split; lia.
Qed.

(** ** Files *)

Section Frames.

Variable Q : gset string -> gset string -> Prop.
Hypothesis Q_refl : forall fs, Q fs fs.
Hypothesis Q_trans : forall a b c, Q a b -> Q b c -> Q a c.

Lemma frames_ret {A} (a : A) : frames Q (ret a).
Proof. intros fs. apply Q_refl. Qed.

Lemma frames_raise {A} e : frames Q (@raise A e).
Proof. intros fs. apply Q_refl. Qed.

Lemma frames_lift {A} (r : result A) : frames Q (lift r).
Proof. destruct r; [apply frames_ret | apply frames_raise]. Qed.

Lemma frames_emit ev : frames Q (emit ev).
Proof. intros fs. apply Q_refl. Qed.

Lemma frames_path_exists p : frames Q (path_exists p).
Proof. intros fs. apply Q_refl. Qed.

Lemma frames_bind {A B} (m : M A) (k : A -> M B) :
  frames Q m -> (forall a, frames Q (k a)) -> frames Q (bind m k).
Proof.
  intros Hm Hk fs. rewrite files_bind.
  destruct (res (m fs)) as [a|e]; [|apply Hm].
  apply (Q_trans _ (files (m fs))); [apply Hm | apply Hk].
Qed.

Lemma frames_try_except {A} (body : M A) catches handler :
  frames Q body -> (forall e, frames Q (handler e)) -> frames Q (try_except body catches handler).
Proof.
  intros Hb Hh fs. unfold try_except.
  destruct (res (body fs)) as [a|e]; [apply Hb|].
  destruct (catches e); [|apply Hb].
  cbn [files]. apply (Q_trans _ (files (body fs))); [apply Hb | apply Hh].
Qed.

Lemma frames_try_pass (body : M unit) : frames Q body -> frames Q (try_pass body).
Proof. intros Hb. apply frames_try_except; [exact Hb | intros; apply frames_ret]. Qed.

Lemma frames_try_except_finally {L A} (block : Block L A) handler fin :
  frames_block Q block -> (forall l e, frames Q (handler l e)) -> (forall l, frames Q (fin l)) ->
  frames Q (try_except_finally block handler fin).
Proof.
  intros Hb Hh Hf fs. unfold try_except_finally.
  specialize (Hb fs). destruct (block fs) as [l r]; cbn [snd] in Hb. cbn [files].
  assert (Q fs (files match res r with
                      | Ok _ => r
                      | Raise e => after r (handler l e (files r))
                      end)) as H1.
  { destruct (res r) as [a|e]; [exact Hb|]. cbn [after files].
    apply (Q_trans _ (files r)); [exact Hb | apply Hh]. }
  apply (Q_trans _ _ _ H1). apply Hf.
Qed.

End Frames.

Ltac frames_walk leaf Hrefl Htrans :=
  repeat first
    [ leaf
    | apply (frames_ret _ Hrefl)
    | apply (frames_raise _ Hrefl)
    | apply (frames_lift _ Hrefl)
    | apply (frames_emit _ Hrefl)
    | apply (frames_path_exists _ Hrefl)
    | apply (frames_bind _ Htrans); [|intros]
    | apply (frames_try_pass _ Hrefl Htrans)
    | apply (frames_try_except _ Htrans); [|intros]
    | match goal with
      | |- frames _ (if ?b then _ else _) => destruct b
      | |- frames _ (match ?x with Some _ => _ | None => _ end) => destruct x
      | x : prod _ _ |- _ => destruct x
      end ].

Lemma screenshot_frame_refl w p fs : screenshot_frame w p fs fs.
Proof. left. reflexivity. Qed.

Lemma screenshot_frame_trans w p a b c :
  screenshot_frame w p a b -> screenshot_frame w p b c -> screenshot_frame w p a c.
Proof.
  intros [->|[-> Hs]] [->|[-> Hs']].
  - left. reflexivity.
  - right. split; [reflexivity | exact Hs'].
  - right. split; [reflexivity | exact Hs].
  - right. split; [|exact Hs]. rewrite (assoc_L (∪)), (idemp_L (∪)). reflexivity.
Qed.

Lemma save_screenshot_frame w site p : frames (screenshot_frame w p) (save_screenshot w site p).
Proof.
  intros fs. rewrite save_screenshot_run. cbn [files].
  destruct (shot_writes (on_save_screenshot w site)) eqn:E.
  - right. split; [reflexivity | exists site; exact E].
  - left. reflexivity.
Qed.

Lemma screenshot_statement_frame w p u sw sel :
  frames (screenshot_frame w p)
    (try_except_finally (screenshot_try w p u sw sel) (screenshot_except w p u)
       (screenshot_finally w)).
Proof.
  apply (frames_try_except_finally _ (screenshot_frame_trans w p)).
  - intros fs. unfold screenshot_try. rewrite get_driver_run. cbn [res events files].
    destruct (on_get_driver w) as [d|e]; cbn [snd files after]; [|left; reflexivity].
    revert fs.
    change (frames (screenshot_frame w p) (render w p u sw sel)).
    unfold render, navigate, wait_nothing_loading, size_and_capture.
    unfold set_window_size, driver_get, wait_until, wait_until_not, execute_script.
    frames_walk ltac:(apply save_screenshot_frame)
                (screenshot_frame_refl w p) (screenshot_frame_trans w p).
  - intros l e. unfold screenshot_except, get_log.
    frames_walk ltac:(apply save_screenshot_frame)
                (screenshot_frame_refl w p) (screenshot_frame_trans w p).
  - intros l. unfold screenshot_finally, quit.
    frames_walk ltac:(apply save_screenshot_frame)
                (screenshot_frame_refl w p) (screenshot_frame_trans w p).
Qed.












(** ** How [_screenshot_asset] ends *)

Lemma navigate_res w u sw sel fs : res (navigate w u sw sel fs) = navigate_result w.
Proof.
  unfold navigate, navigate_result. rewrite res_bind, set_window_size_run. cbn [res files].
  destruct (on_set_window_size w L146) as [[]|e]; [|reflexivity].
  rewrite res_bind, driver_get_run. cbn [res files].
  destruct (on_get w) as [[]|e]; [|reflexivity].
  rewrite wait_until_run. reflexivity.
Qed.

Lemma size_and_capture_res w p sw fs : res (size_and_capture w p sw fs) = sizing_result w.
Proof.
  unfold size_and_capture, sizing_result.
  rewrite res_bind, execute_script_run. cbn [res files].
  destruct (on_execute_script w L169) as [d1|e]; [|reflexivity].
  rewrite res_bind, execute_script_run. cbn [res files].
  destruct (on_execute_script w L179) as [dT|e]; [|reflexivity].
  destruct (measure_plus_offset d1) as [h1 [E1 _]].
  rewrite res_bind, lift_run, E1. cbn [res files].
  rewrite res_bind, set_window_size_run. cbn [res files].
  destruct (on_set_window_size w L193) as [[]|e]; [|reflexivity].
  rewrite res_bind, execute_script_run. cbn [res files].
  destruct (on_execute_script w L196) as [dS|e]; [|reflexivity].
  rewrite res_bind, execute_script_run. cbn [res files].
  destruct (on_execute_script w L199) as [d2|e]; [|reflexivity].
  destruct (measure_plus_offset d2) as [h2 [E2 _]].
  rewrite res_bind, lift_run, E2. cbn [res files].
  rewrite res_bind, set_window_size_run. cbn [res files].
  destruct (on_set_window_size w L209) as [[]|e]; [|reflexivity].
  rewrite save_screenshot_run. reflexivity.
Qed.

Lemma render_res w p u sw sel fs : res (render w p u sw sel fs) = render_result w.
Proof.
  unfold render, render_result. rewrite res_bind, navigate_res.
  destruct (navigate_result w) as [[]|e]; [|reflexivity].
  rewrite res_bind, wait_nothing_loading_res. fold (wait_result w).
  destruct (wait_result w) as [[]|e]; [|reflexivity].
  apply size_and_capture_res.
Qed.

(** X6: [_screenshot_asset] ends as the first browser call that fails does
    (a spinner wait that times out and the diagnostics apart), then as
    [quit] does if that fails; with every call answered it returns.  So it
    never raises an error of its own - not from its arithmetic on the
    measured heights either - and an error of a diagnostic screenshot or
    of the browser log never leaves it. *)
Theorem X6_screenshot_asset_outcome w p u sw sel fs :
  res (_screenshot_asset w p u sw sel fs)
  = match on_get_driver w with
    | Raise e => Raise e
    | Ok _ => match on_quit w with
              | Raise e' => Raise e'
              | Ok _ => render_result w
              end
    end
  /\ (forall e, res (_screenshot_asset w p u sw sel fs) = Raise e -> raised_by_browser w e).
Proof.
  rewrite screenshot_asset_res, render_res. split; [reflexivity|].
  intros e. unfold raised_by_browser, render_result, navigate_result, wait_result, sizing_result.
  destruct (on_get_driver w) as [[]|e0]; [|intros [= ->]; tauto].
  destruct (on_quit w) as [[]|e0]; [|intros [= ->]; tauto].
  destruct (on_set_window_size w L146) as [[]|e0] eqn:E1;
    [|intros [= ->]; right; left; exists L146; exact E1].
  destruct (on_get w) as [[]|e0]; [|intros [= ->]; tauto].
  destruct (on_wait_marker w) as [[]|e0]; [|intros [= ->]; tauto].
  destruct (on_wait_spinner w) as [[]|e0].
  - destruct (on_execute_script w L169) as [?|e0] eqn:E2;
      [|intros [= ->]; do 5 right; left; exists L169; exact E2].
    destruct (on_execute_script w L179) as [?|e0] eqn:E3;
      [|intros [= ->]; do 5 right; left; exists L179; exact E3].
    destruct (on_set_window_size w L193) as [[]|e0] eqn:E4;
      [|intros [= ->]; right; left; exists L193; exact E4].
    destruct (on_execute_script w L196) as [?|e0] eqn:E5;
      [|intros [= ->]; do 5 right; left; exists L196; exact E5].
    destruct (on_execute_script w L199) as [?|e0] eqn:E6;
      [|intros [= ->]; do 5 right; left; exists L199; exact E6].
    destruct (on_set_window_size w L209) as [[]|e0] eqn:E7;
      [|intros [= ->]; right; left; exists L209; exact E7].
    intros H. tauto.
  - destruct (is_TimeoutException e0) eqn:Et; [|intros [= ->]; tauto].
    destruct (on_execute_script w L169) as [?|e1] eqn:E2;
      [|intros [= ->]; do 5 right; left; exists L169; exact E2].
    destruct (on_execute_script w L179) as [?|e1] eqn:E3;
      [|intros [= ->]; do 5 right; left; exists L179; exact E3].
    destruct (on_set_window_size w L193) as [[]|e1] eqn:E4;
      [|intros [= ->]; right; left; exists L193; exact E4].
    destruct (on_execute_script w L196) as [?|e1] eqn:E5;
      [|intros [= ->]; do 5 right; left; exists L196; exact E5].
    destruct (on_execute_script w L199) as [?|e1] eqn:E6;
      [|intros [= ->]; do 5 right; left; exists L199; exact E6].
    destruct (on_set_window_size w L209) as [[]|e1] eqn:E7;
      [|intros [= ->]; right; left; exists L209; exact E7].
    intros H. tauto.
Qed.

Lemma navigate_events_all w u sw sel fs :
  events (navigate w u sw sel fs) = navigate_calls w u sw sel.
Proof.
  unfold navigate, navigate_calls. rewrite events_bind, set_window_size_run. cbn [res events files].
  destruct (on_set_window_size w L146) as [[]|e]; [|reflexivity].
  rewrite events_bind, driver_get_run. cbn [res events files].
  destruct (on_get w) as [[]|e]; [|reflexivity].
  rewrite wait_until_run. reflexivity.
Qed.

Lemma navigate_calls_no_script w u sw sel :
  count is_ExecuteScript (navigate_calls w u sw sel) = 0%nat.
Proof.
  unfold navigate_calls. destruct (on_set_window_size w L146); [destruct (on_get w)|]; reflexivity.
Qed.

Lemma diagnostics_no_script w p driver :
  count is_ExecuteScript (diagnostics_events w p driver) = 0%nat.
Proof.
  unfold diagnostics_events. destruct driver; [|reflexivity].
  destruct (on_get_log w), (shot_result (on_save_screenshot w L223)); reflexivity.
Qed.

(** X7: when opening the page fails - resizing the window, loading the URL
    or waiting for the marker raises [e] - [_screenshot_asset] makes these
    calls and no other: the navigation up to the failure, the two
    diagnostics, the error report, [quit].  There is no wait for the
    spinner and no script is run; [e] is raised unless [quit] fails. *)
Theorem X7_navigation_failure_is_fatal w p u sw sel fs e :
  on_get_driver w = Ok tt ->
  navigate_result w = Raise e ->
  let r := _screenshot_asset w p u sw sel fs in
  events r
  = [Enter_screenshot_asset p u sw sel; GetDriver]
    ++ navigate_calls w u sw sel
    ++ [SetExtra "url_to_render"]
    ++ diagnostics_events w p (Some tt)
    ++ [CaptureException (Some e); Quit]
  /\ count is_ExecuteScript (events r) = 0%nat
  /\ res r = match on_quit w with Ok _ => Raise e | Raise e' => Raise e' end.
Proof.
  intros Hd Hn r. subst r.
  assert (events (_screenshot_asset w p u sw sel fs)
          = [Enter_screenshot_asset p u sw sel; GetDriver]
            ++ navigate_calls w u sw sel
            ++ [SetExtra "url_to_render"]
            ++ diagnostics_events w p (Some tt)
            ++ [CaptureException (Some e); Quit]) as E.
  { rewrite screenshot_asset_events, Hd, render_res.
    unfold render_result. rewrite Hn.
    rewrite screenshot_except_events.
    unfold render. rewrite events_bind, navigate_res, Hn, navigate_events_all.
    cbn [app]. rewrite <- !app_assoc. reflexivity. }
  split; [exact E|]. split.
  - rewrite E, !count_app, navigate_calls_no_script, diagnostics_no_script. reflexivity.
  - rewrite screenshot_asset_res, Hd, render_res. unfold render_result. rewrite Hn.
    destruct (on_quit w); reflexivity.
Qed.

Lemma X7_witness :
  res (_screenshot_asset (no_marker (page [] 0)) "/tmp/3f2a.png"
         "https://app.example/exporter?token=tok" W1920 InsightCard ∅)
  = Raise (Exc TimeoutException "").
Proof.
  destruct (X7_navigation_failure_is_fatal (no_marker (page [] 0)) "/tmp/3f2a.png"
              "https://app.example/exporter?token=tok" W1920 InsightCard ∅
              (Exc TimeoutException "") eq_refl eq_refl) as [_ [_ H]].
  exact H.
Defined.

(** X8: only a timeout of the spinner wait is forgiven.  When that wait
    fails in another way, with the page open, [_screenshot_asset] writes no
    timeout report and runs no script: it goes to the diagnostics, the
    error report and [quit], and raises the error unless [quit] fails. *)
Theorem X8_other_spinner_failures_are_fatal w p u sw sel fs e :
  on_get_driver w = Ok tt ->
  navigate_result w = Ok tt ->
  on_wait_spinner w = Raise e ->
  is_TimeoutException e = false ->
  let r := _screenshot_asset w p u sw sel fs in
  events r
  = [Enter_screenshot_asset p u sw sel; GetDriver]
    ++ navigate_calls w u sw sel
    ++ [WaitUntilNot 20 "Spinner"; SetExtra "url_to_render"]
    ++ diagnostics_events w p (Some tt)
    ++ [CaptureException (Some e); Quit]
  /\ count is_ExecuteScript (events r) = 0%nat
  /\ res r = match on_quit w with Ok _ => Raise e | Raise e' => Raise e' end.
Proof.
  intros Hd Hn Hs Ht r. subst r.
  assert (wait_result w = Raise e) as Hw by (unfold wait_result; rewrite Hs, Ht; reflexivity).
  assert (events (_screenshot_asset w p u sw sel fs)
          = [Enter_screenshot_asset p u sw sel; GetDriver]
            ++ navigate_calls w u sw sel
            ++ [WaitUntilNot 20 "Spinner"; SetExtra "url_to_render"]
            ++ diagnostics_events w p (Some tt)
            ++ [CaptureException (Some e); Quit]) as E.
  { rewrite screenshot_asset_events, Hd, render_res.
    unfold render_result. rewrite Hn, Hw.
    rewrite screenshot_except_events.
    unfold render. rewrite events_bind, navigate_res, Hn, navigate_events_all.
    rewrite events_bind, wait_nothing_loading_res. fold (wait_result w). rewrite Hw.
    rewrite wait_nothing_loading_events, Hs, Ht.
    cbn [app]. rewrite <- !app_assoc. reflexivity. }
  split; [exact E|]. split.
  - rewrite E, !count_app, navigate_calls_no_script, diagnostics_no_script. reflexivity.
  - rewrite screenshot_asset_res, Hd, render_res. unfold render_result. rewrite Hn, Hw.
    destruct (on_quit w); reflexivity.
Qed.

Lemma X8_witness :
  res (_screenshot_asset (lost_window (page [] 0)) "/tmp/3f2a.png"
         "https://app.example/exporter?token=tok" W1920 InsightCard ∅)
  = Raise (Exc WebDriverException "no such window").
Proof.
  destruct (X8_other_spinner_failures_are_fatal (lost_window (page [] 0)) "/tmp/3f2a.png"
              "https://app.example/exporter?token=tok" W1920 InsightCard ∅
              (Exc WebDriverException "no such window") eq_refl eq_refl eq_refl eq_refl)
    as [_ [_ H]].
  exact H.
Defined.

(** ** The steps of [_export_to_png] *)

Lemma makedirs_run w fs :
  TMP_DIR ∈ fs \/ on_makedirs w = Ok tt ->
  let m := (if negb (bool_decide (TMP_DIR ∈ fs))
            then emit (Makedirs TMP_DIR);; lift (on_makedirs w);; write_file TMP_DIR
            else ret tt) fs in
  res m = Ok tt
  /\ events m = (if bool_decide (TMP_DIR ∈ fs) then [] else [Makedirs TMP_DIR])
  /\ files m = with_tmp_dir fs.
Proof.
  intros H. cbn zeta. unfold with_tmp_dir. destruct (decide (TMP_DIR ∈ fs)) as [Hin|Hin].
  - rewrite bool_decide_eq_true_2 by exact Hin. repeat split.
  - rewrite bool_decide_eq_false_2 by exact Hin. destruct H as [H|H]; [contradiction|].
    cbn [negb]. rewrite ?res_bind, ?events_bind, ?files_bind. cbn [emit res events files].
    rewrite ?res_bind, ?events_bind, ?files_bind, lift_run, H. repeat split.
Qed.

(** Once the site URL, the temporary directory, the token and the target
    are there, [_export_to_png] comes down to [_screenshot_asset] followed
    by reading and storing. *)
Lemma export_steps_run w exported_asset p fs access_token url sel sw :
  TMP_DIR ∈ fs \/ on_makedirs w = Ok tt ->
  on_get_public_access_token w = Ok access_token ->
  render_target w exported_asset access_token = Ok (url, sel, sw) ->
  let s := _screenshot_asset w p url sw sel (with_tmp_dir fs) in
  res (export_steps w exported_asset p fs)
  = match res s with
    | Raise e => Raise e
    | Ok _ => res (read_and_store w exported_asset p (files s))
    end
  /\ events (export_steps w exported_asset p fs)
     = preliminaries exported_asset fs
       ++ events s
       ++ match res s with
          | Raise _ => []
          | Ok _ => events (read_and_store w exported_asset p (files s))
          end.
Proof.
  intros Hm Ht Hr. cbn zeta.
  destruct (makedirs_run w fs Hm) as (M1 & M2 & M3). cbn zeta in M1, M2, M3.
  unfold export_steps, preliminaries.
  rewrite res_bind, events_bind. cbn [path_exists res events files app].
  rewrite res_bind, events_bind, M1, M2, M3.
  rewrite res_bind, events_bind. cbn [emit res events files].
  rewrite res_bind, events_bind, lift_run, Ht. cbn [res events files app].
  rewrite res_bind, events_bind, Hr. cbn [lift ret res events files app].
  rewrite res_bind, events_bind. cbn [emit res events files].
  rewrite res_bind, events_bind.
  generalize (_screenshot_asset w p url sw sel (with_tmp_dir fs)). intros s.
  generalize (read_and_store w exported_asset p (files s)). intros t.
  split.
  - destruct (res s); reflexivity.
  - rewrite <- app_assoc. cbn [app].
    destruct (res s); [reflexivity | rewrite app_nil_r; reflexivity].
Qed.

Lemma export_to_png_run w exported_asset fs :
  truthy (SITE_URL w) = true ->
  let p := image_path_of w in
  let b := export_steps w exported_asset p fs in
  res (_export_to_png w exported_asset fs) = res b
  /\ events (_export_to_png w exported_asset fs)
     = Enter_export_to_png (asset_id exported_asset)
       :: events b
       ++ match res b with
          | Ok _ => []
          | Raise e => events (export_except w (Some p) e (files b))
          end.
Proof.
  intros Hs. cbn zeta. rewrite export_to_png_res.
  unfold _export_to_png. rewrite events_bind. cbn [emit res events files app].
  rewrite try_except_finally_events.
  unfold export_try. rewrite Hs. cbn [negb leaving fst snd ret events].
  generalize (export_steps w exported_asset (image_path_of w) fs). intros b.
  split; [reflexivity|]. f_equal. rewrite app_nil_r.
  destruct (res b); [rewrite app_nil_r; reflexivity | reflexivity].
Qed.

Lemma export_except_events w p e fs :
  events (export_except w (Some p) e fs)
  = (if truthy p && bool_decide (p ∈ fs) then [OsRemove p] else [])
    ++ [LogErrorIfSiteUrlNotReachable].
Proof.
  unfold export_except. rewrite events_bind.
  assert (res ((if truthy p
                then there <- path_exists p;; (if there then os_remove p else ret tt)
                else ret tt) fs) = Ok tt
          /\ events ((if truthy p
                      then there <- path_exists p;; (if there then os_remove p else ret tt)
                      else ret tt) fs)
             = (if truthy p && bool_decide (p ∈ fs) then [OsRemove p] else [])) as [-> ->].
  { destruct (truthy p); [|split; reflexivity].
    rewrite res_bind, events_bind. cbn [path_exists res events files andb app].
    destruct (decide (p ∈ fs)) as [Hin|Hin].
    - rewrite !bool_decide_eq_true_2 by exact Hin. unfold os_remove.
      rewrite !bool_decide_eq_true_2 by exact Hin. split; reflexivity.
    - rewrite !bool_decide_eq_false_2 by exact Hin. split; reflexivity. }
  rewrite events_bind. cbn [emit raise res events files app]. reflexivity.
Qed.

(** ** Error reports *)

Lemma reports_app a b : reports (a ++ b) = reports a ++ reports b.
Proof. apply List.filter_app. Qed.

Lemma no_reports_nil : no_reports [].
Proof. reflexivity. Qed.

Lemma no_reports_app a b : no_reports a -> no_reports b -> no_reports (a ++ b).
Proof. unfold no_reports. rewrite reports_app. intros -> ->. reflexivity. Qed.

Lemma render_no_reports w p u sw sel : sat no_reports (render w p u sw sel).
Proof.
  unfold render, navigate, wait_nothing_loading, size_and_capture. unfold_driver.
  sat_walk no_reports_nil no_reports_app; reflexivity.
Qed.

Lemma diagnostics_no_reports w p driver : reports (diagnostics_events w p driver) = [].
Proof.
  unfold diagnostics_events. destruct driver; [|reflexivity].
  destruct (on_get_log w), (shot_result (on_save_screenshot w L223)); reflexivity.
Qed.

Lemma screenshot_except_reports_one w p u driver e fs :
  reports (events (screenshot_except w p u driver e fs)) = [CaptureException (Some e)].
Proof.
  rewrite screenshot_except_events.
  change (?x :: ?l) with ([x] ++ l).
  rewrite !reports_app, diagnostics_no_reports. reflexivity.
Qed.

Lemma screenshot_asset_result w p u sw sel fs :
  res (_screenshot_asset w p u sw sel fs) = screenshot_result w.
Proof. rewrite screenshot_asset_res, render_res. reflexivity. Qed.

(** What [_screenshot_asset] reports: the error of its [try] block, if
    any. *)
Lemma screenshot_asset_reports w p u sw sel fs :
  reports (events (_screenshot_asset w p u sw sel fs))
  = match try_result w with
    | Raise e => [CaptureException (Some e)]
    | Ok _ => []
    end.
Proof.
  rewrite screenshot_asset_events. unfold try_result.
  change (?x :: ?y :: ?l) with ([x; y] ++ l). rewrite reports_app.
  destruct (on_get_driver w) as [d|e].
  - rewrite !reports_app, (render_no_reports w p u sw sel fs), render_res.
    destruct (render_result w) as [|e]; [reflexivity|].
    rewrite screenshot_except_reports_one. reflexivity.
  - rewrite screenshot_except_reports_one. reflexivity.
Qed.

Lemma preliminaries_no_reports exported_asset fs :
  reports (preliminaries exported_asset fs) = [].
Proof. unfold preliminaries. destruct (bool_decide _); reflexivity. Qed.

Lemma export_except_no_reports w p e fs : reports (events (export_except w (Some p) e fs)) = [].
Proof.
  rewrite export_except_events. destruct (truthy p && bool_decide (p ∈ fs)); reflexivity.
Qed.

Lemma refresh_no_reports exported_asset : reports (refresh_events exported_asset) = [].
Proof. unfold refresh_events. destruct (insight exported_asset); reflexivity. Qed.

(** X9: an error of the browser stage is reported twice.  When the [try]
    block of [_screenshot_asset] raises [e1] and the function leaves with
    [e2] (the same error, unless [quit] failed in between), a PNG export
    that got as far as the browser hands [e1] to [capture_exception] inside
    [_screenshot_asset] and [e2] again in [export_image], and raises
    [e2]. *)
Theorem X9_browser_errors_are_reported_twice
    w exported_asset fs access_token url sel sw e1 e2 :
  export_format exported_asset = "image/png" ->
  refresh_result w exported_asset = Ok tt ->
  truthy (SITE_URL w) = true ->
  TMP_DIR ∈ fs \/ on_makedirs w = Ok tt ->
  on_get_public_access_token w = Ok access_token ->
  render_target w exported_asset access_token = Ok (url, sel, sw) ->
  try_result w = Raise e1 ->
  screenshot_result w = Raise e2 ->
  let r := export_image w exported_asset fs in
  res r = Raise e2
  /\ reports (events r) = [CaptureException (Some e1); CaptureException (Some e2)]
  /\ (on_quit w = Ok tt -> e1 = e2).
Proof.
  intros Hf Hq Hs Hm Ht Hr H1 H2 r. subst r.
  apply String.eqb_eq in Hf.
  destruct (export_image_run w exported_asset fs) as [-> ->].
  destruct (export_image_try_png w exported_asset fs Hf) as [-> ->]. rewrite Hq.
  destruct (export_to_png_run w exported_asset fs Hs) as [Rp Ep]. cbn zeta in Rp, Ep.
  destruct (export_steps_run w exported_asset (image_path_of w) fs _ _ _ _ Hm Ht Hr)
    as [Rb Eb]. cbn zeta in Rb, Eb.
  rewrite screenshot_asset_result, H2 in Rb, Eb.
  pose proof (screenshot_asset_reports w (image_path_of w) url sw sel (with_tmp_dir fs)) as Hrep.
  rewrite H1 in Hrep.
  revert Eb Hrep.
  generalize (events (_screenshot_asset w (image_path_of w) url sw sel (with_tmp_dir fs))).
  intros evs Eb Hrep.
  rewrite Rb in Rp, Ep. rewrite Eb in Ep.
  revert Rp Ep. generalize (_export_to_png w exported_asset fs). intros r Rp Ep.
  rewrite Rp, Ep. split; [reflexivity|]. split.
  - change (?x :: ?l) with ([x] ++ l).
    rewrite !reports_app, refresh_no_reports, preliminaries_no_reports, Hrep,
      export_except_no_reports.
    reflexivity.
  - intros Hquit. unfold try_result, screenshot_result in H1, H2.
    destruct (on_get_driver w); [rewrite Hquit in H2|]; congruence.
Qed.

Lemma X9_witness :
  reports (events (export_image (no_marker (page [] 0))
                     (asset_of (Some an_insight) None "image/png") ∅))
  = [CaptureException (Some (Exc TimeoutException ""));
     CaptureException (Some (Exc TimeoutException ""))].
Proof.
  destruct (X9_browser_errors_are_reported_twice (no_marker (page [] 0))
              (asset_of (Some an_insight) None "image/png") ∅ "tok"
              "https://app.example/exporter?token=tok&legend" ExportedInsight W800
              (Exc TimeoutException "") (Exc TimeoutException "")
              eq_refl eq_refl eq_refl (or_intror eq_refl) eq_refl eq_refl eq_refl eq_refl)
    as [_ [H _]].
  exact H.
Defined.

(** ** A capture that leaves no file *)

Lemma image_path_not_tmp_dir w : image_path_of w <> TMP_DIR.
Proof. unfold image_path_of, TMP_DIR. cbn. discriminate. Qed.

Lemma read_and_store_missing w exported_asset p fs :
  p ∉ fs ->
  res (read_and_store w exported_asset p fs) = Raise (Exc FileNotFoundError p)
  /\ events (read_and_store w exported_asset p fs) = [OpenRead p]
  /\ files (read_and_store w exported_asset p fs) = fs.
Proof.
  intros Hp. unfold read_and_store.
  rewrite res_bind, events_bind, files_bind. cbn [emit res events files].
  rewrite res_bind, events_bind, files_bind. cbn [path_exists res events files].
  rewrite bool_decide_eq_false_2 by exact Hp.
  rewrite res_bind, events_bind, files_bind. cbn [raise res events files]. repeat split.
Qed.

Lemma screenshot_asset_outside w p u sw sel :
  sat (Forall (fun ev => outside_screenshot_asset ev = false)) (_screenshot_asset w p u sw sel).
Proof.
  unfold _screenshot_asset.
  apply (sat_bind _ (Forall_app_both _)); [apply sat_emit; repeat constructor | intros _].
  apply (sat_try_except_finally _ (Forall_app_both _)).
  - apply (sat_block_screenshot_try _ (Forall_none _) (Forall_app_both _));
      [repeat constructor|].
    unfold render, navigate, wait_nothing_loading, size_and_capture. unfold_driver.
    sat_walk (Forall_none (fun ev => outside_screenshot_asset ev = false))
             (Forall_app_both (fun ev => outside_screenshot_asset ev = false));
      repeat constructor.
  - intros l e. unfold screenshot_except. unfold_driver.
    sat_walk (Forall_none (fun ev => outside_screenshot_asset ev = false))
             (Forall_app_both (fun ev => outside_screenshot_asset ev = false));
      repeat constructor.
  - intros l. unfold screenshot_finally. unfold_driver.
    sat_walk (Forall_none (fun ev => outside_screenshot_asset ev = false))
             (Forall_app_both (fun ev => outside_screenshot_asset ev = false));
      repeat constructor.
Qed.

(** X10: a capture that returns without leaving a file does not pass for a
    success.  When every browser call is answered but no [save_screenshot]
    call writes the image (and the path was free), [_export_to_png] raises
    FileNotFoundError for the image path when it opens the file, stores
    nothing, and leaves no image behind. *)
Theorem X10_missing_screenshot_fails_the_export
    w exported_asset fs access_token url sel sw :
  truthy (SITE_URL w) = true ->
  TMP_DIR ∈ fs \/ on_makedirs w = Ok tt ->
  on_get_public_access_token w = Ok access_token ->
  render_target w exported_asset access_token = Ok (url, sel, sw) ->
  screenshot_result w = Ok tt ->
  (forall site, shot_writes (on_save_screenshot w site) = false) ->
  image_path_of w ∉ fs ->
  let r := _export_to_png w exported_asset fs in
  res r = Raise (Exc FileNotFoundError (image_path_of w))
  /\ count is_SaveContent (events r) = 0%nat
  /\ In (OpenRead (image_path_of w)) (events r).
Proof.
  intros Hs Hm Ht Hr Hok Hw Hp r. subst r.
  set (p := image_path_of w) in *.
  destruct (export_to_png_run w exported_asset fs Hs) as [Rp Ep]. cbn zeta in Rp, Ep.
  fold p in Rp, Ep.
  destruct (export_steps_run w exported_asset p fs _ _ _ _ Hm Ht Hr) as [Rb Eb].
  cbn zeta in Rb, Eb. rewrite screenshot_asset_result, Hok in Rb, Eb.
  assert (p ∉ files (_screenshot_asset w p url sw sel (with_tmp_dir fs))) as Hgone.
  { assert (files (_screenshot_asset w p url sw sel (with_tmp_dir fs)) = with_tmp_dir fs) as ->.
    { unfold _screenshot_asset. rewrite files_bind. cbn [emit res files].
      destruct (screenshot_statement_frame w p url sw sel (with_tmp_dir fs))
        as [E|[_ [site Hsite]]]; [exact E|].
      rewrite Hw in Hsite. discriminate. }
    unfold with_tmp_dir. destruct (bool_decide (TMP_DIR ∈ fs)); [exact Hp|].
    pose proof (image_path_not_tmp_dir w). fold p in H. set_solver. }
  destruct (read_and_store_missing w exported_asset p _ Hgone) as (R1 & E1 & _).
  rewrite R1 in Rb. rewrite E1 in Eb.
  pose proof (screenshot_asset_outside w p url sw sel (with_tmp_dir fs)) as Hout.
  revert Eb Hout. generalize (events (_screenshot_asset w p url sw sel (with_tmp_dir fs))).
  intros evs Eb Hout.
  rewrite Rb in Rp, Ep. rewrite Eb in Ep.
  rewrite export_except_events in Ep.
  revert Rp Ep. generalize (_export_to_png w exported_asset fs). intros r Rp Ep.
  rewrite Rp, Ep. split; [reflexivity|]. split.
  - rewrite count_cons, !count_app.
    rewrite (count_none is_SaveContent outside_screenshot_asset evs Hout)
      by (intros ev; destruct ev; cbn; congruence).
    unfold preliminaries.
    destruct (bool_decide (TMP_DIR ∈ fs)), (truthy p && bool_decide _); reflexivity.
  - right. rewrite !in_app_iff. left. right. right. left. reflexivity.
Qed.

Lemma X10_witness :
  res (_export_to_png (silent_capture (page [] 0)) (asset_of (Some an_insight) None "image/png") ∅)
  = Raise (Exc FileNotFoundError "/tmp/3f2a.png").
Proof.
  destruct (X10_missing_screenshot_fails_the_export (silent_capture (page [] 0))
              (asset_of (Some an_insight) None "image/png") ∅ "tok"
              "https://app.example/exporter?token=tok&legend" ExportedInsight W800
              eq_refl (or_intror eq_refl) eq_refl eq_refl eq_refl (fun _ => eq_refl)
              (not_elem_of_empty _)) as [H _].
  exact H.
Defined.

(** ** The widths a run applies *)

Lemma window_widths_app a b : window_widths (a ++ b) = window_widths a ++ window_widths b.
Proof.
  induction a as [|ev a IH]; [reflexivity|].
  cbn [app]. destruct ev; cbn [window_widths app]; rewrite IH; reflexivity.
Qed.

Lemma sizing_widths w p sw fs :
  exists x k,
    window_widths (events (size_and_capture w p sw fs)) = firstn k [x; x]
    /\ int sw <= x <= Z.max (int sw) 1800.
Proof.
  unfold size_and_capture.
  rewrite events_bind, execute_script_run. cbn [res events files].
  destruct (on_execute_script w L169) as [d1|e];
    [|exists (int sw), 0%nat; split; [reflexivity | lia]].
  rewrite events_bind, execute_script_run. cbn [res events files].
  destruct (on_execute_script w L179) as [dT|e];
    [|exists (int sw), 0%nat; split; [reflexivity | lia]].
  set (x := resolve_width sw (js_to_python (run_script TABLE_WIDTH dT))).
  exists x.
  destruct (measure_plus_offset d1) as [h1 [E1 _]].
  rewrite events_bind, lift_run, E1. cbn [res events files].
  rewrite events_bind, set_window_size_run. cbn [res events files].
  destruct (on_set_window_size w L193) as [[]|e];
    [|exists 1%nat; split; [reflexivity | apply resolve_width_bounds]].
  rewrite events_bind, execute_script_run. cbn [res events files].
  destruct (on_execute_script w L196) as [dS|e];
    [|exists 1%nat; split; [reflexivity | apply resolve_width_bounds]].
  rewrite events_bind, execute_script_run. cbn [res events files].
  destruct (on_execute_script w L199) as [d2|e];
    [|exists 1%nat; split; [reflexivity | apply resolve_width_bounds]].
  destruct (measure_plus_offset d2) as [h2 [E2 _]].
  rewrite events_bind, lift_run, E2. cbn [res events files].
  rewrite events_bind, set_window_size_run. cbn [res events files].
  exists 2%nat. split; [|apply resolve_width_bounds].
  destruct (on_set_window_size w L209) as [[]|e]; [|reflexivity].
  rewrite save_screenshot_run. reflexivity.
Qed.

Lemma navigate_widths w u sw sel : window_widths (navigate_calls w u sw sel) = [int sw].
Proof.
  unfold navigate_calls. destruct (on_set_window_size w L146); [destruct (on_get w)|]; reflexivity.
Qed.

Lemma wait_widths w p u fs : window_widths (events (wait_nothing_loading w p u fs)) = [].
Proof.
  rewrite wait_nothing_loading_events.
  destruct (on_wait_spinner w) as [[]|e]; [reflexivity|].
  destruct (is_TimeoutException e); [|reflexivity].
  destruct (shot_result (on_save_screenshot w L162)); reflexivity.
Qed.

Lemma screenshot_except_widths w p u driver e fs :
  window_widths (events (screenshot_except w p u driver e fs)) = [].
Proof.
  rewrite screenshot_except_events. unfold diagnostics_events.
  destruct driver; [|reflexivity].
  destruct (on_get_log w), (shot_result (on_save_screenshot w L223)); reflexivity.
Qed.

Lemma render_widths_shape w p u sw sel fs :
  exists x k,
    window_widths (events (render w p u sw sel fs)) = int sw :: firstn k [x; x]
    /\ int sw <= x <= Z.max (int sw) 1800.
Proof.
  unfold render. rewrite events_bind, navigate_events_all.
  destruct (res (navigate w u sw sel fs)) as [[]|e].
  - rewrite events_bind.
    destruct (sizing_widths w p sw
                (files (wait_nothing_loading w p u (files (navigate w u sw sel fs)))))
      as (x & k & E & Hx).
    destruct (res (wait_nothing_loading w p u _)) as [[]|e].
    + exists x, k. rewrite !window_widths_app, navigate_widths, wait_widths, E.
      split; [reflexivity | exact Hx].
    + exists (int sw), 0%nat. rewrite window_widths_app, navigate_widths, wait_widths.
      split; [reflexivity | lia].
  - exists (int sw), 0%nat. rewrite navigate_widths. split; [reflexivity | lia].
Qed.

(** X11: the width is decided once.  The window sizes [_screenshot_asset]
    applies are, in order, the requested width, then a width [x] chosen
    at the first measure, then the same [x] again; the run may stop
    anywhere in that sequence but never applies any other width, and the
    second measure never changes [x]. *)
Theorem X11_the_width_is_decided_once w p u sw sel fs :
  exists x n,
    window_widths (events (_screenshot_asset w p u sw sel fs)) = firstn n [int sw; x; x]
    /\ int sw <= x <= Z.max (int sw) 1800.
Proof.
  rewrite screenshot_asset_events.
  change (?a :: ?b :: ?l) with ([a; b] ++ l). rewrite window_widths_app.
  destruct (on_get_driver w) as [d|e].
  - destruct (render_widths_shape w p u sw sel fs) as (x & k & E & Hx).
    exists x, (S k). rewrite !window_widths_app, E. split; [|exact Hx].
    assert (window_widths
              match res (render w p u sw sel fs) with
              | Ok _ => []
              | Raise e =>
                  events (screenshot_except w p u (Some d) e (files (render w p u sw sel fs)))
              end = []) as ->.
    { destruct (res (render w p u sw sel fs)); [reflexivity | apply screenshot_except_widths]. }
    cbn [window_widths app firstn]. rewrite app_nil_r. reflexivity.
  - exists (int sw), 0%nat. rewrite screenshot_except_widths. split; [reflexivity | lia].
Qed.

(** ** Failures before the browser *)

Lemma export_image_files_raise w exported_asset fs e :
  res (export_image_try w exported_asset fs) = Raise e ->
  files (export_image w exported_asset fs) = files (export_image_try w exported_asset fs).
Proof.
  intros H. unfold export_image.
  rewrite ?files_bind, ?res_bind. cbn [emit res events files].
  rewrite ?files_bind, ?res_bind. cbn [emit res events files].
  unfold try_except. rewrite H. cbn [any_Exception files].
  rewrite ?files_bind, ?res_bind. cbn [emit raise res events files]. reflexivity.
Qed.

Lemma export_image_try_refresh_fails w exported_asset fs e :
  refresh_result w exported_asset = Raise e ->
  export_image_try w exported_asset fs
  = {| res := Raise e; events := refresh_events exported_asset; files := fs |}.
Proof.
  unfold refresh_result, refresh_events, export_image_try.
  destruct (insight exported_asset) as [i|]; [|discriminate].
  intros H. unfold bind at 1. unfold bind at 1. cbn [emit res events files].
  rewrite lift_run, H. reflexivity.
Qed.

(** X12: when recomputing the insight raises, [export_image] stops there,
    whatever the export format: nothing but the recomputation and the
    failure report happens, the files are untouched, and the exception
    of the recomputation is the one raised. *)
Theorem X12_failed_recomputation_stops_the_export w exported_asset fs e :
  refresh_result w exported_asset = Raise e ->
  let r := export_image w exported_asset fs in
  res r = Raise e
  /\ events r
     = [SetTag "team_id"; SetTag "asset_id"]
       ++ refresh_events exported_asset ++ failure_report e
  /\ files r = fs.
Proof.
  intros H. cbn zeta.
  pose proof (export_image_try_refresh_fails w exported_asset fs e H) as E.
  assert (res (export_image_try w exported_asset fs) = Raise e) as Hr by (rewrite E; reflexivity).
  destruct (export_image_events w exported_asset fs e Hr) as [R1 R2].
  split; [exact R1|]. split.
  - rewrite R2, E. reflexivity.
  - rewrite (export_image_files_raise w exported_asset fs e Hr), E. reflexivity.
Qed.

Lemma X12_witness :
  refresh_result (failing_query (page [] 0))
    (asset_of (Some an_insight) None "application/pdf")
  = Raise (Exc Exception "query timed out")
  /\ events (export_image (failing_query (page [] 0))
               (asset_of (Some an_insight) None "application/pdf") ∅)
     = [SetTag "team_id"; SetTag "asset_id"]
       ++ refresh_events (asset_of (Some an_insight) None "application/pdf")
       ++ failure_report (Exc Exception "query timed out").
Proof.
  split; [reflexivity|].
  apply (X12_failed_recomputation_stops_the_export
           (failing_query (page [] 0))
           (asset_of (Some an_insight) None "application/pdf") ∅
           (Exc Exception "query timed out")).
  reflexivity.
Defined.

Lemma export_to_png_no_site_url w exported_asset fs :
  truthy (SITE_URL w) = false ->
  _export_to_png w exported_asset fs
  = {| res := Raise site_url_error;
       events := [Enter_export_to_png (asset_id exported_asset); LogErrorIfSiteUrlNotReachable];
       files := fs |}.
Proof.
  intros H. unfold _export_to_png, try_except_finally, export_try, bind.
  cbn [emit res events files]. rewrite H. reflexivity.
Qed.

(** X13: with no site URL configured, an "image/png" export whose
    recomputation went through fails at the first check of
    [_export_to_png]: the error is the configuration error, no temporary
    directory is made, no access token is requested, no browser is
    started and no file is touched; the timer still ticks and the
    failure is reported once. *)
Theorem X13_unset_site_url_fails_before_any_work w exported_asset fs :
  truthy (SITE_URL w) = false ->
  export_format exported_asset = "image/png" ->
  refresh_result w exported_asset = Ok tt ->
  let r := export_image w exported_asset fs in
  res r = Raise site_url_error
  /\ events r
     = [SetTag "team_id"; SetTag "asset_id"]
       ++ refresh_events exported_asset
       ++ [Enter_export_to_png (asset_id exported_asset); LogErrorIfSiteUrlNotReachable;
           Counter "EXPORT_TIMER"]
       ++ failure_report site_url_error
  /\ files r = fs.
Proof.
  intros Hs Hf Hq. cbn zeta.
  assert (String.eqb (export_format exported_asset) "image/png" = true) as Hf'
    by (apply String.eqb_eq; exact Hf).
  destruct (export_image_try_png w exported_asset fs Hf') as [T1 T2].
  rewrite Hq, export_to_png_no_site_url in T1 by exact Hs.
  rewrite Hq, export_to_png_no_site_url in T2 by exact Hs.
  cbn [res events app] in T1, T2.
  destruct (export_image_events w exported_asset fs site_url_error T1) as [R1 R2].
  split; [exact R1|]. split.
  - rewrite R2, T2, <- app_assoc. reflexivity.
  - rewrite (export_image_files_raise w exported_asset fs site_url_error T1).
    unfold export_image_try. rewrite Hf', files_bind.
    assert (forall fs',
              files ((match insight exported_asset with
                      | Some i =>
                          emit (ProcessQueryDict (insight_id i)
                                  (option_map dashboard_id (dashboard exported_asset)));;
                          lift (on_process_query_dict w)
                      | None => ret tt
                      end) fs') = fs') as Hfs.
    { intros fs'. destruct (insight exported_asset); [|reflexivity].
      rewrite files_bind. cbn [emit res files]. rewrite lift_run. reflexivity. }
    rewrite Hfs.
    assert (files ((try_finally (_export_to_png w exported_asset)
                      (emit (Counter "EXPORT_TIMER"));;
                    emit (Counter "EXPORT_SUCCEEDED_COUNTER")) fs) = fs) as ->.
    { rewrite files_bind. unfold try_finally.
      rewrite export_to_png_no_site_url by exact Hs. reflexivity. }
    match goal with |- match ?x with _ => _ end = _ => destruct x end; reflexivity.
Qed.

Lemma X13_witness :
  res (export_image (no_site_url (page [] 0)) (asset_of None (Some a_dashboard) "image/png") ∅)
  = Raise site_url_error
  /\ files (export_image (no_site_url (page [] 0))
              (asset_of None (Some a_dashboard) "image/png") ∅) = ∅.
Proof.
  destruct (X13_unset_site_url_fails_before_any_work
              (no_site_url (page [] 0)) (asset_of None (Some a_dashboard) "image/png") ∅
              eq_refl eq_refl eq_refl) as (R & _ & F).
  split; [exact R | exact F].
Defined.

(** ** Storing the content *)

Lemma stores_nothing_nil : stores_nothing [].
Proof. reflexivity. Qed.

Lemma stores_nothing_app a b : stores_nothing a -> stores_nothing b -> stores_nothing (a ++ b).
Proof. unfold stores_nothing. intros Ha Hb. rewrite count_app, Ha, Hb. reflexivity. Qed.

Lemma stores_once_bind {A B} w (m : M A) (k : A -> M B) :
  sat stores_nothing m ->
  (forall a fs, stores_once w (k a fs)) ->
  forall fs, stores_once w (bind m k fs).
Proof.
  intros Hm Hk fs. unfold stores_once.
  rewrite res_bind, events_bind. specialize (Hm fs). unfold stores_nothing in Hm.
  destruct (res (m fs)) as [a|e].
  - rewrite count_app, Hm. apply Hk.
  - rewrite Hm. split; [lia|]. split; [discriminate | intros; lia].
Qed.

Lemma stores_once_raise {A} w e evs fs :
  stores_nothing evs ->
  stores_once w ({| res := Raise e; events := evs; files := fs |} : Run A).
Proof.
  intros H. unfold stores_once. cbn [res events]. unfold stores_nothing in H. rewrite H.
  split; [lia|]. split; [discriminate | intros; lia].
Qed.

Lemma screenshot_asset_stores_nothing w p u sw sel :
  sat stores_nothing (_screenshot_asset w p u sw sel).
Proof.
  intros fs. apply (count_none is_SaveContent outside_screenshot_asset).
  - apply screenshot_asset_outside.
  - intros ev. destruct ev; cbn; congruence.
Qed.

Lemma read_and_store_stores_once w exported_asset p fs :
  stores_once w (read_and_store w exported_asset p fs).
Proof.
  unfold read_and_store, stores_once.
  rewrite res_bind, events_bind. cbn [emit res events files].
  rewrite res_bind, events_bind. cbn [path_exists res events files app].
  destruct (decide (p ∈ fs)) as [Hin|Hin].
  - rewrite !bool_decide_eq_true_2 by exact Hin.
    rewrite res_bind, events_bind, lift_run. cbn [res events files app].
    destruct (on_read w) as [[]|e0];
      [|split; [cbn; lia | split; [discriminate | cbn; intros; lia]]].
    rewrite res_bind, events_bind. cbn [emit res events files app].
    rewrite res_bind, events_bind, lift_run. cbn [res events files app].
    destruct (on_save_content w) as [[]|e1].
    + unfold os_remove. rewrite !bool_decide_eq_true_2 by exact Hin. cbn [res events app].
      split; [cbn; lia | split; [reflexivity | discriminate]].
    + split; [cbn; lia | split; [discriminate | intros e He _; exact He]].
  - rewrite !bool_decide_eq_false_2 by exact Hin.
    rewrite res_bind, events_bind. cbn [raise res events files app].
    split; [cbn; lia | split; [discriminate | cbn; intros; lia]].
Qed.

Lemma export_steps_stores_once w exported_asset p fs :
  stores_once w (export_steps w exported_asset p fs).
Proof.
  revert fs. unfold export_steps.
  apply stores_once_bind; [intros ?; reflexivity | intros tmp].
  apply stores_once_bind.
  { sat_walk stores_nothing_nil stores_nothing_app; reflexivity. }
  intros _.
  apply stores_once_bind; [intros ?; reflexivity | intros _].
  apply stores_once_bind; [apply (sat_lift _ stores_nothing_nil) | intros access_token].
  apply stores_once_bind; [apply (sat_lift _ stores_nothing_nil) | intros [[url sel] sw]].
  apply stores_once_bind; [intros ?; reflexivity | intros _].
  apply stores_once_bind; [apply screenshot_asset_stores_nothing | intros _].
  apply read_and_store_stores_once.
Qed.

Lemma export_to_png_stores_once w exported_asset fs :
  stores_once w (_export_to_png w exported_asset fs).
Proof.
  destruct (truthy (SITE_URL w)) eqn:Hs.
  - destruct (export_to_png_run w exported_asset fs Hs) as [R E]. cbn zeta in R, E.
    pose proof (export_steps_stores_once w exported_asset (image_path_of w) fs) as H.
    revert R E H. generalize (export_steps w exported_asset (image_path_of w) fs).
    generalize (_export_to_png w exported_asset fs). intros r b R E (H1 & H2 & H3).
    unfold stores_once. rewrite R, E, count_cons, count_app. cbn [is_SaveContent].
    assert (count is_SaveContent
              match res b with
              | Ok _ => []
              | Raise e => events (export_except w (Some (image_path_of w)) e (files b))
              end = 0%nat) as ->.
    { destruct (res b); [reflexivity|]. rewrite export_except_events.
      destruct (truthy _ && bool_decide _); reflexivity. }
    rewrite Nat.add_0_r. cbn [Nat.add]. split; [exact H1|]. split; [exact H2 | exact H3].
  - rewrite export_to_png_no_site_url by exact Hs.
    apply stores_once_raise. reflexivity.
Qed.

Lemma export_image_stores_once w exported_asset fs :
  stores_once w (export_image w exported_asset fs).
Proof.
  destruct (export_image_run w exported_asset fs) as [R E].
  assert (stores_once w (export_image_try w exported_asset fs)
          /\ (forall e, stores_nothing (failure_report e))) as [H Hrep].
  { split; [|intros e; reflexivity].
    destruct (String.eqb (export_format exported_asset) "image/png") eqn:Hf.
    - destruct (export_image_try_png w exported_asset fs Hf) as [T1 T2].
      pose proof (export_to_png_stores_once w exported_asset fs) as (H1 & H2 & H3).
      revert T1 T2 H1 H2 H3.
      generalize (_export_to_png w exported_asset fs).
      generalize (export_image_try w exported_asset fs). intros t r T1 T2 H1 H2 H3.
      assert (stores_nothing (refresh_events exported_asset)) as Hq.
      { unfold refresh_events. destruct (insight exported_asset); reflexivity. }
      unfold stores_once. rewrite T1, T2, count_app, Hq.
      destruct (refresh_result w exported_asset) as [[]|e0].
      + rewrite count_app, count_cons. cbn [is_SaveContent Nat.add].
        assert (count is_SaveContent
                  match res r with
                  | Ok _ => [Counter "EXPORT_SUCCEEDED_COUNTER"]
                  | Raise _ => []
                  end = 0%nat) as -> by (destruct (res r); reflexivity).
        rewrite Nat.add_0_r. cbn [Nat.add]. split; [exact H1|]. split; [exact H2 | exact H3].
      + cbn. split; [lia|]. split; [discriminate | intros; lia].
    - destruct (export_image_try_gate w exported_asset fs Hf) as [T1 T2].
      revert T1 T2. generalize (export_image_try w exported_asset fs). intros t T1 T2.
      assert (stores_nothing (events t)) as Hn.
      { rewrite T2. destruct (insight exported_asset); reflexivity. }
      unfold stores_once. unfold stores_nothing in Hn. rewrite Hn.
      split; [lia|]. split; [|intros; lia].
      intros a Ha. rewrite T1 in Ha.
      destruct (insight exported_asset), (on_process_query_dict w); discriminate. }
  revert R E H. generalize (export_image_try w exported_asset fs).
  generalize (export_image w exported_asset fs). intros r t R E (H1 & H2 & H3).
  unfold stores_once. rewrite R, E.
  change ([?a; ?b] ++ ?l) with (a :: b :: l). rewrite !count_cons, count_app.
  cbn [is_SaveContent Nat.add].
  assert (count is_SaveContent
            match res t with
            | Ok _ => []
            | Raise e => failure_report e
            end = 0%nat) as -> by (destruct (res t); reflexivity).
  rewrite Nat.add_0_r. split; [exact H1|]. split; [exact H2 | exact H3].
Qed.

(** X14: the content of the asset is stored at most once by [export_image];
    a run that returns has stored it exactly once; and a run that raises
    after the call to [save_content] raises the exception of that call:
    no later step of the export fails. *)
Theorem X14_content_is_stored_once w exported_asset fs :
  let r := export_image w exported_asset fs in
  let stored := count is_SaveContent (events r) in
  (stored <= 1)%nat
  /\ (res r = Ok tt -> stored = 1%nat)
  /\ (forall e, res r = Raise e -> stored = 1%nat -> on_save_content w = Raise e).
Proof.
  cbn zeta. destruct (export_image_stores_once w exported_asset fs) as (H1 & H2 & H3).
  split; [exact H1|]. split; [apply H2 | exact H3].
Qed.

(** ** When an export succeeds *)

Lemma size_and_capture_writes w p sw fs :
  res (size_and_capture w p sw fs) = Ok tt ->
  shot_writes (on_save_screenshot w L210) = true ->
  p ∈ files (size_and_capture w p sw fs).
Proof.
  unfold size_and_capture. intros H Hw. revert H.
  rewrite res_bind, files_bind, execute_script_run. cbn [res files].
  destruct (on_execute_script w L169) as [d1|e]; [|discriminate].
  rewrite res_bind, files_bind, execute_script_run. cbn [res files].
  destruct (on_execute_script w L179) as [dT|e]; [|discriminate].
  destruct (measure_plus_offset d1) as [h1 [E1 _]].
  rewrite res_bind, files_bind, lift_run, E1. cbn [res files].
  rewrite res_bind, files_bind, set_window_size_run. cbn [res files].
  destruct (on_set_window_size w L193) as [[]|e]; [|discriminate].
  rewrite res_bind, files_bind, execute_script_run. cbn [res files].
  destruct (on_execute_script w L196) as [dS|e]; [|discriminate].
  rewrite res_bind, files_bind, execute_script_run. cbn [res files].
  destruct (on_execute_script w L199) as [d2|e]; [|discriminate].
  destruct (measure_plus_offset d2) as [h2 [E2 _]].
  rewrite res_bind, files_bind, lift_run, E2. cbn [res files].
  rewrite res_bind, files_bind, set_window_size_run. cbn [res files].
  destruct (on_set_window_size w L209) as [[]|e]; [|discriminate].
  rewrite save_screenshot_run, Hw. cbn [res files]. intros _.
  apply elem_of_union_l, elem_of_singleton. reflexivity.
Qed.

Lemma render_writes w p u sw sel fs :
  res (render w p u sw sel fs) = Ok tt ->
  shot_writes (on_save_screenshot w L210) = true ->
  p ∈ files (render w p u sw sel fs).
Proof.
  unfold render. rewrite res_bind, files_bind.
  destruct (res (navigate w u sw sel fs)) as [[]|e]; [|discriminate].
  rewrite res_bind, files_bind.
  destruct (res (wait_nothing_loading w p u (files (navigate w u sw sel fs)))) as [[]|e];
    [|discriminate].
  apply size_and_capture_writes.
Qed.

Lemma screenshot_asset_writes w p u sw sel fs :
  res (_screenshot_asset w p u sw sel fs) = Ok tt ->
  shot_writes (on_save_screenshot w L210) = true ->
  p ∈ files (_screenshot_asset w p u sw sel fs).
Proof.
  intros H Hw. rewrite screenshot_asset_res in H.
  unfold _screenshot_asset. rewrite files_bind. cbn [emit res files].
  unfold try_except_finally. rewrite screenshot_try_run.
  destruct (on_get_driver w) as [d|e]; [|discriminate].
  destruct (on_quit w) as [[]|e] eqn:Eq; [|discriminate].
  pose proof (render_writes w p u sw sel fs H Hw) as Hin.
  revert H Hin. generalize (render w p u sw sel fs). intros r H Hin.
  cbn [after res events files]. rewrite H. cbn [screenshot_finally].
  rewrite quit_run. cbn [files]. exact Hin.
Qed.

Lemma read_and_store_res w exported_asset p fs :
  p ∈ fs ->
  res (read_and_store w exported_asset p fs)
  = match on_read w with
    | Raise e => Raise e
    | Ok _ => on_save_content w
    end.
Proof.
  intros Hin. unfold read_and_store.
  rewrite res_bind. cbn [emit res events files].
  rewrite res_bind. cbn [path_exists res events files].
  rewrite !bool_decide_eq_true_2 by exact Hin.
  rewrite res_bind, lift_run. cbn [res files].
  destruct (on_read w) as [[]|e0]; [|reflexivity].
  rewrite res_bind. cbn [emit res files].
  rewrite res_bind, lift_run. cbn [res files].
  destruct (on_save_content w) as [[]|e1]; [|reflexivity].
  unfold os_remove. rewrite !bool_decide_eq_true_2 by exact Hin. reflexivity.
Qed.

Lemma export_steps_returns w exported_asset p fs :
  res (export_steps w exported_asset p fs) = Ok tt ->
  (TMP_DIR ∈ fs \/ on_makedirs w = Ok tt)
  /\ exists access_token target,
       on_get_public_access_token w = Ok access_token
       /\ render_target w exported_asset access_token = Ok target.
Proof.
  unfold export_steps. rewrite res_bind. cbn [path_exists res files].
  rewrite res_bind.
  destruct (decide (TMP_DIR ∈ fs)) as [Hin|Hin].
  - rewrite !bool_decide_eq_true_2 by exact Hin. cbn [negb ret res files].
    rewrite res_bind. cbn [emit res files]. rewrite res_bind, lift_run. cbn [res files].
    destruct (on_get_public_access_token w) as [tok|e]; [|discriminate].
    rewrite res_bind, lift_run. cbn [res files].
    destruct (render_target w exported_asset tok) as [target|e] eqn:Et; [|discriminate].
    intros _. split; [left; exact Hin|]. exists tok, target. split; [reflexivity | exact Et].
  - rewrite !bool_decide_eq_false_2 by exact Hin. cbn [negb].
    rewrite !res_bind. cbn [emit res files]. rewrite lift_run. cbn [res files].
    destruct (on_makedirs w) as [[]|e]; [|discriminate].
    cbn [write_file res files].
    rewrite ?files_bind. cbn [emit res files]. rewrite ?lift_run. cbn [res files write_file].
    rewrite ?res_bind. cbn [emit res files]. rewrite ?res_bind, ?lift_run. cbn [res files].
    destruct (on_get_public_access_token w) as [tok|e]; [|discriminate].
    rewrite res_bind, lift_run. cbn [res files].
    destruct (render_target w exported_asset tok) as [target|e] eqn:Et; [|discriminate].
    intros _. split; [right; reflexivity|]. exists tok, target. split; [reflexivity | exact Et].
Qed.

(** X15: when an export succeeds.  With the image path free beforehand and
    a final capture that leaves its file, [export_image] returns exactly
    when the format is "image/png", the recomputation of the insight (if
    any) went through, the site URL is set, the temporary directory is
    there or can be made, the token is issued, the asset has an insight or
    a dashboard, [_screenshot_asset] returns, and reading the file and
    storing its content both work. *)
Theorem X15_export_succeeds_exactly_when w exported_asset fs :
  image_path_of w ∉ fs ->
  shot_writes (on_save_screenshot w L210) = true ->
  res (export_image w exported_asset fs) = Ok tt
  <-> (export_format exported_asset = "image/png"
       /\ refresh_result w exported_asset = Ok tt
       /\ truthy (SITE_URL w) = true
       /\ (TMP_DIR ∈ fs \/ on_makedirs w = Ok tt)
       /\ (exists access_token target,
             on_get_public_access_token w = Ok access_token
             /\ render_target w exported_asset access_token = Ok target)
       /\ screenshot_result w = Ok tt
       /\ on_read w = Ok tt
       /\ on_save_content w = Ok tt).
Proof.
  intros Hp Hw.
  destruct (export_image_run w exported_asset fs) as [-> _].
  set (p := image_path_of w) in *.
  assert (forall tok url sel sw,
            TMP_DIR ∈ fs \/ on_makedirs w = Ok tt ->
            on_get_public_access_token w = Ok tok ->
            render_target w exported_asset tok = Ok (url, sel, sw) ->
            res (export_steps w exported_asset p fs)
            = match screenshot_result w with
              | Raise e => Raise e
              | Ok _ => match on_read w with
                        | Raise e => Raise e
                        | Ok _ => on_save_content w
                        end
              end) as Hsteps.
  { intros tok url sel sw Hm Ht Hr.
    destruct (export_steps_run w exported_asset p fs _ _ _ _ Hm Ht Hr) as [Rb _].
    cbn zeta in Rb. rewrite Rb. clear Rb.
    pose proof (screenshot_asset_writes w p url sw sel (with_tmp_dir fs)) as Hin.
    rewrite screenshot_asset_result in *.
    destruct (screenshot_result w) as [[]|e]; [|reflexivity].
    apply read_and_store_res, Hin; [reflexivity | exact Hw]. }
  split.
  - intros H.
    destruct (String.eqb (export_format exported_asset) "image/png") eqn:Hf.
    2:{ destruct (export_image_try_gate w exported_asset fs Hf) as [T _].
        rewrite T in H.
        destruct (insight exported_asset), (on_process_query_dict w); discriminate. }
    destruct (export_image_try_png w exported_asset fs Hf) as [T _].
    rewrite T in H. clear T.
    destruct (refresh_result w exported_asset) as [[]|e]; [|discriminate].
    destruct (truthy (SITE_URL w)) eqn:Hs.
    2:{ rewrite export_to_png_no_site_url in H by exact Hs. discriminate. }
    destruct (export_to_png_run w exported_asset fs Hs) as [R _]. cbn zeta in R.
    rewrite R in H. clear R. fold p in H.
    destruct (export_steps_returns w exported_asset p fs H)
      as (Hm & tok & [[url sel] sw] & Ht & Hr).
    rewrite (Hsteps tok url sel sw Hm Ht Hr) in H.
    split; [apply String.eqb_eq; exact Hf|]. split; [reflexivity|]. split; [reflexivity|].
    split; [exact Hm|]. split; [exists tok, (url, sel, sw); split; assumption|].
    destruct (screenshot_result w) as [[]|e]; [|discriminate]. split; [reflexivity|].
    destruct (on_read w) as [[]|e]; [|discriminate]. split; [reflexivity | exact H].
  - intros (Hf & Hq & Hs & Hm & (tok & [[url sel] sw] & Ht & Hr) & Hok & Hrd & Hsc).
    apply String.eqb_eq in Hf.
    destruct (export_image_try_png w exported_asset fs Hf) as [-> _]. rewrite Hq.
    destruct (export_to_png_run w exported_asset fs Hs) as [-> _]. fold p.
    rewrite (Hsteps tok url sel sw Hm Ht Hr), Hok, Hrd. exact Hsc.
Qed.

Lemma X15_witness :
  res (export_image (calm (page [] 0)) (asset_of None (Some a_dashboard) "image/png") ∅) = Ok tt.
Proof.
  apply (X15_export_succeeds_exactly_when (calm (page [] 0))
           (asset_of None (Some a_dashboard) "image/png") ∅
           (not_elem_of_empty _) eq_refl).
  repeat split; try reflexivity.
  - right. reflexivity.
  - eexists "tok", _. split; reflexivity.
Defined.
